(** * soaringmeteo: forecast decoding, temporal index and period navigation

    A shallow embedding of [data/Forecast.ts] (the classes
    [LocationForecasts], [DayForecasts], [DetailedForecast]) and of the
    period selectors of [PeriodSelector.tsx], followed by the properties
    the specification states about them.

    The decoder runs on whatever [JSON.parse] produced, so raw records are
    untyped JavaScript values: a field the TypeScript type declares may be
    missing ([undefined]) or hold a value of another kind.  Numbers are
    IEEE doubles in the program; here a finite number is the rational it
    denotes and arithmetic on finite numbers is exact (no rounding of
    quotients, no signed zero).  The program's sums and differences are
    the exact ones as long as operands and result are integers of
    magnitude at most 2^53 ([exact_integer] below); the properties that
    depend on an exact sum or difference are stated for such integers
    only. *)

From Stdlib Require Import ZArith QArith Qround Qabs Bool List String Lia Lqa.
Import ListNotations.

Local Open Scope Z_scope.
Local Open Scope Q_scope.
Local Open Scope string_scope.
Local Open Scope list_scope.

Set Warnings "-register-all".

(* ===================================================================== *)
(** ** JavaScript numbers *)
(* ===================================================================== *)

(** The Number type: [NaN], the two infinities, and the finite values. *)
Inductive number : Type :=
| NaN
| PInf
| NInf
| Fin (q : Q).

(** [a + b], without the rounding of the result to a double: the
    program's sum when the exact sum is a double, as it is for integers
    up to 2^53 in magnitude. *)
Definition number_add (a b : number) : number :=
  match a, b with
  | NaN, _ | _, NaN => NaN
  | PInf, NInf | NInf, PInf => NaN
  | PInf, _ | _, PInf => PInf
  | NInf, _ | _, NInf => NInf
  | Fin p, Fin q => Fin (p + q)
  end.

(** [a - b], without the rounding of the result to a double: the
    program's difference when the exact difference is a double, as it is
    for integers up to 2^53 in magnitude. *)
Definition number_sub (a b : number) : number :=
  match a, b with
  | NaN, _ | _, NaN => NaN
  | PInf, PInf | NInf, NInf => NaN
  | PInf, _ | _, NInf => PInf
  | NInf, _ | _, PInf => NInf
  | Fin p, Fin q => Fin (p - q)
  end.

(** [a / k] for a positive literal [k] (the decoder only divides by the
    literals 10, 100 and 3600000). *)
Definition number_div (a : number) (k : positive) : number :=
  match a with
  | Fin q => Fin (q / inject_Z (Zpos k))
  | other => other
  end.

(** [a < b] on numbers: false as soon as one side is [NaN]. *)
Definition number_ltb (a b : number) : bool :=
  match a, b with
  | NaN, _ | _, NaN => false
  | _, NInf => false
  | NInf, _ => true
  | PInf, _ => false
  | _, PInf => true
  | Fin p, Fin q => negb (Qle_bool q p)
  end.

(** [a === b] on numbers: [NaN] equals nothing, itself included. *)
Definition number_strict_eq (a b : number) : bool :=
  match a, b with
  | PInf, PInf | NInf, NInf => true
  | Fin p, Fin q => Qeq_bool p q
  | _, _ => false
  end.

(** The same number value (finite values up to the rational they denote). *)
Definition same_number (a b : number) : Prop :=
  match a, b with
  | NaN, NaN | PInf, PInf | NInf, NInf => True
  | Fin p, Fin q => p == q
  | _, _ => False
  end.

Module Math.

(** [Math.max(a, b)] *)
Definition max (a b : number) : number :=
  match a, b with
  | NaN, _ | _, NaN => NaN
  | PInf, _ | _, PInf => PInf
  | NInf, x | x, NInf => x
  | Fin p, Fin q => if Qle_bool p q then Fin q else Fin p
  end.

(** [Math.min(a, b)] *)
Definition min (a b : number) : number :=
  match a, b with
  | NaN, _ | _, NaN => NaN
  | NInf, _ | _, NInf => NInf
  | PInf, x | x, PInf => x
  | Fin p, Fin q => if Qle_bool p q then Fin p else Fin q
  end.

(** [Math.round(a)]: the nearest integer, a tie going to the integer
    closer to +Infinity, that is floor(a + 1/2). *)
Definition round (a : number) : number :=
  match a with
  | Fin q => Fin (inject_Z (Qfloor (q + (1 # 2))))
  | other => other
  end.

End Math.

(** An integer as a number. *)
Definition of_Z (z : Z) : number := Fin (inject_Z z).

(** An array length as a number. *)
Definition of_nat (n : nat) : number := of_Z (Z.of_nat n).

(* ===================================================================== *)
(** ** JavaScript values, property access, exceptions *)
(* ===================================================================== *)

(** What [JSON.parse] can return, plus [undefined] (the value of a
    property that is not there).  An object is the list of its own
    properties, each key once. *)
Inductive value : Type :=
| Undefined
| Null
| Bool (b : bool)
| Number (n : number)
| String (s : string)
| Array (elements : list value)
| Object (properties : list (string * value)).

(** The only exception the modelled code can raise. *)
Inductive exn : Type :=
| TypeError.

(** The outcome of evaluating an expression. *)
Inductive outcome (A : Type) : Type :=
| Returned (a : A)
| Thrown (e : exn).

Arguments Returned {A} a.
Arguments Thrown {A} e.

Definition bind {A B : Type} (m : outcome A) (k : A -> outcome B) : outcome B :=
  match m with
  | Returned a => k a
  | Thrown e => Thrown e
  end.

Declare Scope outcome_scope.
Delimit Scope outcome_scope with outcome.
Notation "x <- m ;; k" := (bind m (fun x => k))
  (at level 61, m at next level, right associativity) : outcome_scope.
Local Open Scope outcome_scope.

(** [xs.map(f)] where [f] may throw. *)
Fixpoint mapM {A B : Type} (f : A -> outcome B) (xs : list A) : outcome (list B) :=
  match xs with
  | [] => Returned []
  | x :: rest =>
      y <- f x ;;
      ys <- mapM f rest ;;
      Returned (y :: ys)
  end.

(** [xs.filter(p)] where [p] may throw. *)
Fixpoint filterM {A : Type} (p : A -> outcome bool) (xs : list A) : outcome (list A) :=
  match xs with
  | [] => Returned []
  | x :: rest =>
      keep <- p x ;;
      ys <- filterM p rest ;;
      Returned (if keep then x :: ys else ys)
  end.

(** [xs.forEach(f)] where the callback updates the variables [S] it
    closes over and may throw. *)
Fixpoint forEach {S A : Type} (f : S -> A -> outcome S) (xs : list A) (s : S) : outcome S :=
  match xs with
  | [] => Returned s
  | x :: rest =>
      s' <- f s x ;;
      forEach f rest s'
  end.

Definition is_undefined (v : value) : bool :=
  match v with
  | Undefined => true
  | _ => false
  end.

Fixpoint lookup (k : string) (props : list (string * value)) : value :=
  match props with
  | [] => Undefined
  | (k', v) :: rest => if String.eqb k k' then v else lookup k rest
  end.

(** [v.k] for the keys of the wire format: reading a property of
    [undefined] or [null] throws; an object gives its property or
    [undefined]; arrays, strings, numbers and booleans have no property of
    any of those names. *)
Definition get (v : value) (k : string) : outcome value :=
  match v with
  | Undefined | Null => Thrown TypeError
  | Object props => Returned (lookup k props)
  | _ => Returned Undefined
  end.

(** Decimal digits of an index, as a property name. *)
Definition digit (n : nat) : string :=
  match n with
  | 0 => "0" | 1 => "1" | 2 => "2" | 3 => "3" | 4 => "4"
  | 5 => "5" | 6 => "6" | 7 => "7" | 8 => "8" | _ => "9"
  end%nat.

(** [v[i]] for a literal index [i] below 10. *)
Definition index (v : value) (i : nat) : outcome value :=
  match v with
  | Undefined | Null => Thrown TypeError
  | Array elements => Returned (nth i elements Undefined)
  | Object props => Returned (lookup (digit i) props)
  | String s =>
      Returned match String.get i s with
               | Some c => String (String.String c EmptyString)
               | None => Undefined
               end
  | _ => Returned Undefined
  end.

(** The receiver of [.map] or [.filter]: anything but an array throws
    (no such property on [undefined]; not a function otherwise). *)
Definition as_array (v : value) : outcome (list value) :=
  match v with
  | Array elements => Returned elements
  | _ => Thrown TypeError
  end.

(* ===================================================================== *)
(** ** Dates and the host environment *)
(* ===================================================================== *)

(** A [Date] object: its time value in milliseconds since the epoch, or
    an invalid date (time value [NaN]). *)
Inductive Date : Type :=
| Invalid_Date
| Date_ms (t : Z).

(** What the JavaScript engine supplies and this development leaves open:
    conversions of strings and of objects, the order of strings, date
    parsing and the local time zone. *)
Class Host : Type := {
  (** [ToNumber] of a string *)
  StringToNumber : string -> number;
  (** [ToPrimitive] of an array or object of a parsed record: the string
      its [toString] gives, or a [TypeError] when the record shadows
      [toString] with a value that cannot be called *)
  ObjectToString : value -> outcome string;
  (** [a < b] on strings (code unit order) *)
  StringLessThan : string -> string -> bool;
  (** [Date.parse]: the time value in milliseconds, or none ([NaN]) *)
  Date_parse : string -> option Z;
  (** offset of local time from UTC, in milliseconds, at a UTC instant *)
  LocalTZA : Z -> Z
}.

(* ===================================================================== *)
(** ** The decoded data model ([data/Forecast.ts]) *)
(* ===================================================================== *)

(** The decoder copies most fields from the record as they are, so a
    decoded field holds a [value]; a field computed by arithmetic holds a
    [number]. *)

Module Wind.
Record t : Type := mk { u : value; v : value }.
End Wind.

Module CumulusClouds.
Record t : Type := mk { bottom : value; top : value }.
End CumulusClouds.

Module DetailedBoundaryLayer.
Record t : Type := mk {
  depth : value;
  soaringLayerDepth : value;
  wind : Wind.t;
  cumulusClouds : option CumulusClouds.t   (* [None] is [undefined] *)
}.
End DetailedBoundaryLayer.

Module DetailedSurface.
Record t : Type := mk { temperature : value; dewPoint : value; wind : Wind.t }.
End DetailedSurface.

Module DetailedRain.
Record t : Type := mk { convective : value; total : value }.
End DetailedRain.

Module AboveGround.
Record t : Type := mk {
  elevation : value;
  u : value;
  v : value;
  temperature : value;
  dewPoint : value;
  cloudCover : number
}.
End AboveGround.

Module DetailedWinds.
Record t : Type := mk {
  soaringLayerTop : value;
  _300MAGL : value;
  _2000MAMSL : value;
  _3000MAMSL : value;
  _4000MAMSL : value
}.
End DetailedWinds.

Module DetailedForecast.
Record t : Type := mk {
  time : Date;
  xcPotential : value;
  xcPotentialFlatlands : value;
  thermalVelocity : number;
  boundaryLayer : DetailedBoundaryLayer.t;
  surface : DetailedSurface.t;
  cloudCover : number;
  rain : DetailedRain.t;
  meanSeaLevelPressure : value;
  isothermZero : value;
  aboveGround : list AboveGround.t;
  winds : DetailedWinds.t
}.
End DetailedForecast.

Module DayForecasts.
Record t : Type := mk {
  thunderstormRisk : value;
  forecasts : list DetailedForecast.t
}.
End DayForecasts.

(** The fields of [ForecastMetadata] (declared in
    [data/ForecastMetadata.ts]) that the modelled code reads. *)
Module ForecastMetadata.
Record t : Type := mk {
  init : Date;
  firstTimeStep : Date;
  latest : number
}.
End ForecastMetadata.

Module LocationForecasts.
Record t : Type := mk {
  elevation : value;
  dayForecasts : list DayForecasts.t;
  metadata : ForecastMetadata.t;
  latitude : number;
  longitude : number
}.
End LocationForecasts.

(** [date.getTime()] *)
Definition getTime (d : Date) : number :=
  match d with
  | Invalid_Date => NaN
  | Date_ms t => of_Z t
  end.

Definition msPerDay : Z := 86400000.

(** [TimeClip]: a finite number within 8.64e15 of the epoch, truncated to
    an integer, is a time value; anything else is not. *)
Definition TimeClip (n : number) : Date :=
  match n with
  | Fin q =>
      if Qle_bool (Qabs q) (inject_Z 8640000000000000)
      then Date_ms (Z.quot (Qnum q) (Zpos (Qden q)))
      else Invalid_Date
  | _ => Invalid_Date
  end.

Section Decoder.

Context {host : Host}.

(** [ToPrimitive]: arrays and objects go through [toString]. *)
Definition ToPrimitive (v : value) : outcome value :=
  match v with
  | Array _ | Object _ => s <- ObjectToString v ;; Returned (String s)
  | _ => Returned v
  end.

(** [ToNumber] of a primitive value. *)
Definition ToNumber_primitive (p : value) : number :=
  match p with
  | Undefined => NaN
  | Null => Fin 0
  | Bool true => Fin 1
  | Bool false => Fin 0
  | Number n => n
  | String s => StringToNumber s
  | Array _ | Object _ => NaN
  end.

Definition ToNumber (v : value) : outcome number :=
  p <- ToPrimitive v ;;
  Returned (ToNumber_primitive p).

(** [v / k] for a positive literal [k] *)
Definition js_div (v : value) (k : positive) : outcome number :=
  n <- ToNumber v ;;
  Returned (number_div n k).

(** [a > b]: both sides are made primitive; two strings are compared as
    strings, anything else as numbers. *)
Definition js_gt (a b : value) : outcome bool :=
  pa <- ToPrimitive a ;;
  pb <- ToPrimitive b ;;
  match pa, pb with
  | String sa, String sb => Returned (StringLessThan sb sa)
  | _, _ => Returned (number_ltb (ToNumber_primitive pb) (ToNumber_primitive pa))
  end.

(** [new Date(v)]: a string is parsed, anything else is converted to a
    number and clipped. *)
Definition Date_new (v : value) : outcome Date :=
  p <- ToPrimitive v ;;
  match p with
  | String s =>
      Returned match Date_parse s with
               | Some t => TimeClip (of_Z t)
               | None => Invalid_Date
               end
  | _ => Returned (TimeClip (ToNumber_primitive p))
  end.

(** [date.getDay()]: the day of the week in local time, 0 for Sunday,
    [NaN] for an invalid date. *)
Definition getDay (d : Date) : number :=
  match d with
  | Invalid_Date => NaN
  | Date_ms t => of_Z (((t + LocalTZA t) / msPerDay + 4) mod 7)%Z
  end.

(** The callback of [data.p.filter]: [e => e.h > elevation] *)
Definition aboveTerrain (elevation e : value) : outcome bool :=
  h <- get e "h" ;;
  js_gt h elevation.

(** The callback of [.map] that builds an [AboveGround] sample. *)
Definition aboveGroundEntry (entry : value) : outcome AboveGround.t :=
  h <- get entry "h" ;;
  u <- get entry "u" ;;
  v <- get entry "v" ;;
  t <- get entry "t" ;;
  dt <- get entry "dt" ;;
  c <- get entry "c" ;;
  cloudCover <- js_div c 100 ;;
  Returned (AboveGround.mk h u v t dt cloudCover).

(** [new DetailedForecast(data, elevation)] *)
Definition DetailedForecast_new (data elevation : value) : outcome DetailedForecast.t :=
  t <- get data "t" ;;
  time <- Date_new t ;;
  xc <- get data "xc" ;;
  xcf <- get data "xcf" ;;
  let xcPotentialFlatlands := if negb (is_undefined xcf) then xcf else Number (Fin 0) in
  v <- get data "v" ;;
  thermalVelocity <- js_div v 10 ;;
  bl <- get data "bl" ;;
  bl_h <- get bl "h" ;;
  bl_c <- get bl "c" ;;
  soaringLayerDepth <- (if negb (is_undefined bl_c) then index bl_c 0 else get bl "h") ;;
  bl_u <- get bl "u" ;;
  bl_v <- get bl "v" ;;
  cumulusClouds <-
    (if is_undefined bl_c then Returned None
     else bottom <- index bl_c 0 ;;
          top <- index bl_c 1 ;;
          Returned (Some (CumulusClouds.mk bottom top))) ;;
  let boundaryLayer :=
    DetailedBoundaryLayer.mk bl_h soaringLayerDepth (Wind.mk bl_u bl_v) cumulusClouds in
  s <- get data "s" ;;
  s_t <- get s "t" ;;
  s_dt <- get s "dt" ;;
  s_u <- get s "u" ;;
  s_v <- get s "v" ;;
  let surface := DetailedSurface.mk s_t s_dt (Wind.mk s_u s_v) in
  c <- get data "c" ;;
  cloudCover <- js_div c 100 ;;
  r <- get data "r" ;;
  r_c <- get r "c" ;;
  r_t <- get r "t" ;;
  let rain := DetailedRain.mk r_c r_t in
  mslet <- get data "mslet" ;;
  iso <- get data "iso" ;;
  let isothermZero := if negb (is_undefined iso) then iso else Undefined in
  p <- get data "p" ;;
  entries <- as_array p ;;
  kept <- filterM (aboveTerrain elevation) entries ;;
  aboveGround <- mapM aboveGroundEntry kept ;;
  w <- get data "w" ;;
  w0 <- index w 0 ;;
  w1 <- index w 1 ;;
  w2 <- index w 2 ;;
  w3 <- index w 3 ;;
  w4 <- index w 4 ;;
  let winds := DetailedWinds.mk w0 w1 w2 w3 w4 in
  Returned (DetailedForecast.mk time xc xcPotentialFlatlands thermalVelocity
              boundaryLayer surface cloudCover rain mslet isothermZero
              aboveGround winds).

(** [new DayForecasts(data, elevation)] *)
Definition DayForecasts_new (data elevation : value) : outcome DayForecasts.t :=
  th <- get data "th" ;;
  h <- get data "h" ;;
  hours <- as_array h ;;
  forecasts <- mapM (fun data => DetailedForecast_new data elevation) hours ;;
  Returned (DayForecasts.mk th forecasts).

(** [new LocationForecasts(data, metadata, latitude, longitude)] *)
Definition LocationForecasts_new (data : value) (metadata : ForecastMetadata.t)
    (latitude longitude : number) : outcome LocationForecasts.t :=
  elevation <- get data "h" ;;
  d <- get data "d" ;;
  days <- as_array d ;;
  dayForecasts <- mapM (fun data => DayForecasts_new data elevation) days ;;
  Returned (LocationForecasts.mk elevation dayForecasts metadata latitude longitude).

End Decoder.

(* ===================================================================== *)
(** ** Temporal index (methods of [DetailedForecast] and [LocationForecasts]) *)
(* ===================================================================== *)

(** [forecast.hourOffsetSinceFirstTimeStep(firstTimeStep)] *)
Definition hourOffsetSinceFirstTimeStep (this : DetailedForecast.t) (firstTimeStep : Date) : number :=
  Math.round
    (number_div (number_sub (getTime (DetailedForecast.time this)) (getTime firstTimeStep))
                3600000).

(** [this.dayForecasts.map(_ => _.forecasts).reduce((x, y) => x.concat(y), [])] *)
Definition flatForecasts (this : LocationForecasts.t) : list DetailedForecast.t :=
  fold_left (fun x y => x ++ y)
            (map DayForecasts.forecasts (LocationForecasts.dayForecasts this)) [].

(** [locationForecasts.offsetAndDates()] *)
Definition offsetAndDates (this : LocationForecasts.t) : list (number * Date) :=
  map (fun forecast =>
         (hourOffsetSinceFirstTimeStep forecast
            (ForecastMetadata.firstTimeStep (LocationForecasts.metadata this)),
          DetailedForecast.time forecast))
      (flatForecasts this).

(** [locationForecasts.atHourOffset(hourOffset)]; [None] is [undefined]. *)
Definition atHourOffset (this : LocationForecasts.t) (hourOffset : number)
  : option DetailedForecast.t :=
  find (fun forecast =>
          number_strict_eq
            (hourOffsetSinceFirstTimeStep forecast
               (ForecastMetadata.firstTimeStep (LocationForecasts.metadata this)))
            hourOffset)
       (flatForecasts this).

(* ===================================================================== *)
(** ** Period selectors ([PeriodSelector.tsx]) *)
(* ===================================================================== *)

(** What a day label shows: the result of [date.toLocaleDateString] with
    the given [day], [month] and [weekday] options, or a literal text. *)
Inductive Content : Type :=
| toLocaleDateString (date : Date) (day month weekday : string)
| Text (s : string).

(** The string ['\xa0'] (a no-break space). *)
Definition nbsp : string := String.String (Ascii.ascii_of_nat 160) EmptyString.

Section PeriodSelector.

Context {host : Host}.

(** The elements built by JSX are kept abstract: [periodSpan] is the
    [<span>] of one period, given whether it is highlighted, the hour
    offset its click handler passes on, and the date whose hour it shows. *)
Variable HTMLElement : Type.
Variable periodSpan : bool -> number -> Date -> HTMLElement.

(** [periodsPerDay], imported from [data/ForecastMetadata.ts]. *)
Variable periodsPerDay : number.

(** A day group: its periods (element and hour offset) and the date of
    the period that opened it. *)
Definition DayGroup : Type := (list (HTMLElement * number) * Date)%type.

(** [flatPeriodSelectors()] *)
Definition flatPeriodSelectors (forecastOffsetAndDates : list (number * Date))
    (currentHourOffset : number) : list (HTMLElement * number * Date) :=
  map (fun '(hourOffset, date) =>
         (periodSpan (number_strict_eq currentHourOffset hourOffset) hourOffset date,
          hourOffset, date))
      forecastOffsetAndDates.

(** [date.getDay() === lastDay], where [lastDay] is a number or [null]. *)
Definition sameDay (day : number) (lastDay : option number) : bool :=
  match lastDay with
  | None => false
  | Some last => number_strict_eq day last
  end.

(** [result[result.length - 1][0].push(x)]: with no last group the read
    of index 0 of [undefined] throws. *)
Definition push_last (result : list DayGroup) (x : HTMLElement * number)
  : outcome (list DayGroup) :=
  match nth_error result (List.length result - 1) with
  | Some (periods, date) =>
      Returned (firstn (List.length result - 1) result ++ [(periods ++ [x], date)])
  | None => Thrown TypeError
  end.

(** The callback of [flatPeriodSelectors().forEach], acting on the two
    variables it closes over, [result] and [lastDay]. *)
Definition groupPeriod (st : list DayGroup * option number)
    (selector : HTMLElement * number * Date) : outcome (list DayGroup * option number) :=
  let '(result, lastDay) := st in
  let '(hourSelector, hourOffset, date) := selector in
  result' <-
    (if sameDay (getDay date) lastDay
     then push_last result (hourSelector, hourOffset)
     else Returned (result ++ [([(hourSelector, hourOffset)], date)])) ;;
  Returned (result', Some (getDay date)).

(** [periodSelectorsByDay()], as a function of [flatPeriodSelectors()]. *)
Definition periodSelectorsByDay (flat : list (HTMLElement * number * Date))
  : outcome (list DayGroup) :=
  st <- forEach groupPeriod flat ([], None) ;;
  Returned (fst st).

(** The day element above a group: its width in columns, what a click on
    it hands to [props.onClick], its label and the period elements below. *)
Record DayEl : Type := mkDayEl {
  columns : nat;
  onClick : outcome number;
  label : Content;
  selectors : list HTMLElement
}.

(** [periods[1][1]], the argument of [props.onClick] in the day label's
    click handler: [periods[1]] is [undefined] past the end, and reading
    its index 1 throws. *)
Definition dayEl_onClick (periods : list (HTMLElement * number)) : outcome number :=
  match nth_error periods 1 with
  | Some tuple => Returned (snd tuple)
  | None => Thrown TypeError
  end.

(** The label of a day element. *)
Definition dayEl_label (periods : list (HTMLElement * number)) (date : Date) : Content :=
  if number_strict_eq (of_nat (List.length periods)) periodsPerDay
  then toLocaleDateString date "2-digit" "short" "short"
  else Text nbsp.

(** The callback of [periodSelectorsByDay().map]. *)
Definition dayEl (group : DayGroup) : DayEl :=
  let '(periods, date) := group in
  mkDayEl (List.length periods) (dayEl_onClick periods) (dayEl_label periods date)
          (map fst periods).

(** [periodSelectors()] *)
Definition periodSelectors (flat : list (HTMLElement * number * Date)) : outcome (list DayEl) :=
  groups <- periodSelectorsByDay flat ;;
  Returned (map dayEl groups).

End PeriodSelector.

Arguments flatPeriodSelectors {HTMLElement} periodSpan forecastOffsetAndDates currentHourOffset.
Arguments push_last {HTMLElement} result x.
Arguments groupPeriod {host HTMLElement} st selector.
Arguments periodSelectorsByDay {host HTMLElement} flat.
Arguments mkDayEl {HTMLElement} columns onClick label selectors.
Arguments columns {HTMLElement} d.
Arguments onClick {HTMLElement} d.
Arguments label {HTMLElement} d.
Arguments selectors {HTMLElement} d.
Arguments dayEl_onClick {HTMLElement} periods.
Arguments dayEl_label {HTMLElement} periodsPerDay periods date.
Arguments dayEl {HTMLElement} periodsPerDay group.
Arguments periodSelectors {host HTMLElement} periodsPerDay flat.

(* ===================================================================== *)
(** ** Navigation buttons ([PeriodSelectors]) *)
(* ===================================================================== *)

(** The argument each button hands to [props.onHourOffsetChanged]. *)

Definition previousDayBtn_onClick (hourOffset : number) : number :=
  Math.max (number_sub hourOffset (Fin 24)) (Fin 3).

Definition previousPeriodBtn_onClick (hourOffset : number) : number :=
  Math.max (number_sub hourOffset (Fin 3)) (Fin 3).

Definition nextPeriodBtn_onClick (hourOffset latest : number) : number :=
  Math.min (number_add hourOffset (Fin 3)) latest.

Definition nextDayBtn_onClick (hourOffset latest : number) : number :=
  Math.min (number_add hourOffset (Fin 24)) latest.

(** The four buttons as one function of a navigation intent. *)
Inductive Intent : Type :=
| previousDay
| previousPeriod
| nextPeriod
| nextDay.

Definition nextOffset (current : number) (intent : Intent) (latest : number) : number :=
  match intent with
  | previousDay => previousDayBtn_onClick current
  | previousPeriod => previousPeriodBtn_onClick current
  | nextPeriod => nextPeriodBtn_onClick current latest
  | nextDay => nextDayBtn_onClick current latest
  end.

(* ===================================================================== *)
(** ** Vocabulary of the specification *)
(* ===================================================================== *)

(** The property [k] of a record, [undefined] when it is not there. *)
Definition field (v : value) (k : string) : value :=
  match v with
  | Object props => lookup k props
  | _ => Undefined
  end.

(** The elements of an array value. *)
Definition elements_of (v : value) : list value :=
  match v with
  | Array elements => elements
  | _ => []
  end.

Definition is_primitive (v : value) : bool :=
  match v with
  | Array _ | Object _ => false
  | _ => true
  end.

Definition is_object (v : value) : bool :=
  match v with
  | Object _ => true
  | _ => false
  end.

Definition is_array (v : value) : bool :=
  match v with
  | Array _ => true
  | _ => false
  end.

(** The shape of a raw record: every nested container the TypeScript
    types declare is there (an object where an object is declared, an
    array where an array is), and the leaves the decoder computes with
    are primitive values.  Nothing is asked of the leaves beyond that:
    a numeric field may be missing or hold a value that is no number. *)

Definition shape_entry (e : value) : bool :=
  is_object e && is_primitive (field e "h") && is_primitive (field e "c").

Definition shape_hour (data : value) : bool :=
  is_object data
  && is_primitive (field data "t")
  && is_primitive (field data "v")
  && is_primitive (field data "c")
  && is_object (field data "bl")
  && (is_undefined (field (field data "bl") "c") || is_array (field (field data "bl") "c"))
  && is_object (field data "s")
  && is_object (field data "r")
  && is_array (field data "p")
  && forallb shape_entry (elements_of (field data "p"))
  && is_array (field data "w").

Definition shape_day (data : value) : bool :=
  is_object data
  && is_array (field data "h")
  && forallb shape_hour (elements_of (field data "h")).

Definition shape_location (data : value) : bool :=
  is_object data
  && is_primitive (field data "h")
  && is_array (field data "d")
  && forallb shape_day (elements_of (field data "d")).

(** The raw hour-records of a location record, day after day. *)
Definition rawHours (data : value) : list value :=
  List.concat (map (fun day => elements_of (field day "h")) (elements_of (field data "d"))).

(** What a decoded forecast keeps of a raw hour-record when a numeric
    field is missing: a field that is copied stays [undefined], a field
    that is scaled becomes [NaN]. *)
Definition copied_unchecked (raw : value) (f : DetailedForecast.t) : Prop :=
  DetailedForecast.xcPotential f = field raw "xc"
  /\ DetailedForecast.meanSeaLevelPressure f = field raw "mslet"
  /\ DetailedBoundaryLayer.depth (DetailedForecast.boundaryLayer f) = field (field raw "bl") "h"
  /\ DetailedSurface.temperature (DetailedForecast.surface f) = field (field raw "s") "t"
  /\ DetailedRain.total (DetailedForecast.rain f) = field (field raw "r") "t"
  /\ (field raw "v" = Undefined -> DetailedForecast.thermalVelocity f = NaN)
  /\ (field raw "c" = Undefined -> DetailedForecast.cloudCover f = NaN).

(** A profile entry's elevation strictly exceeds the terrain elevation
    (in the sense of JavaScript's [>]). *)
Definition exceeds {host : Host} (elevation e : value) : bool :=
  match js_gt (field e "h") elevation with
  | Returned b => b
  | Thrown _ => false
  end.

(** A decoded sample carries the fields of a raw profile entry. *)
Definition sample_of (e : value) (ag : AboveGround.t) : Prop :=
  AboveGround.elevation ag = field e "h"
  /\ AboveGround.u ag = field e "u"
  /\ AboveGround.v ag = field e "v"
  /\ AboveGround.temperature ag = field e "t"
  /\ AboveGround.dewPoint ag = field e "dt".

(** What the decoder returns on a profile entry of the right shape. *)
Definition decodedEntry {host : Host} (e : value) : AboveGround.t :=
  AboveGround.mk (field e "h") (field e "u") (field e "v") (field e "t") (field e "dt")
                 (number_div (ToNumber_primitive (field e "c")) 100).

(** What the decoder returns on an hour-record of the right shape, given
    the date its time stamp is read as. *)
Definition decodedHour {host : Host} (time : Date) (data elevation : value)
  : DetailedForecast.t :=
  let bl := field data "bl" in
  let c := field bl "c" in
  let s := field data "s" in
  let r := field data "r" in
  let w := elements_of (field data "w") in
  DetailedForecast.mk
    time
    (field data "xc")
    (if is_undefined (field data "xcf") then Number (Fin 0) else field data "xcf")
    (number_div (ToNumber_primitive (field data "v")) 10)
    (DetailedBoundaryLayer.mk
       (field bl "h")
       (if is_undefined c then field bl "h" else nth 0 (elements_of c) Undefined)
       (Wind.mk (field bl "u") (field bl "v"))
       (if is_undefined c then None
        else Some (CumulusClouds.mk (nth 0 (elements_of c) Undefined)
                                    (nth 1 (elements_of c) Undefined))))
    (DetailedSurface.mk (field s "t") (field s "dt") (Wind.mk (field s "u") (field s "v")))
    (number_div (ToNumber_primitive (field data "c")) 100)
    (DetailedRain.mk (field r "c") (field r "t"))
    (field data "mslet")
    (field data "iso")
    (map decodedEntry (filter (exceeds elevation) (elements_of (field data "p"))))
    (DetailedWinds.mk (nth 0 w Undefined) (nth 1 w Undefined) (nth 2 w Undefined)
                      (nth 3 w Undefined) (nth 4 w Undefined)).

(** [a <= b] on numbers. *)
Definition number_leb (a b : number) : bool :=
  match a, b with
  | NaN, _ | _, NaN => false
  | NInf, _ | _, PInf => true
  | _, NInf | PInf, _ => false
  | Fin p, Fin q => Qle_bool p q
  end.

(** [d1 < d2] on dates (their time values are compared). *)
Definition Date_ltb (d1 d2 : Date) : bool := number_ltb (getTime d1) (getTime d2).

(** [d2] is at least one hour after [d1]. *)
Definition hour_apart (d1 d2 : Date) : bool :=
  match d1, d2 with
  | Date_ms t1, Date_ms t2 => (t1 + 3600000 <=? t2)%Z
  | _, _ => false
  end.

(** Every element stands in [R] to the next one. *)
Fixpoint increasing {A : Type} (R : A -> A -> bool) (l : list A) : bool :=
  match l with
  | x :: (y :: _) as rest => R x y && increasing R rest
  | _ => true
  end.

(** The offset a forecast of a location gets. *)
Definition offsetOf (lf : LocationForecasts.t) (f : DetailedForecast.t) : number :=
  hourOffsetSinceFirstTimeStep f
    (ForecastMetadata.firstTimeStep (LocationForecasts.metadata lf)).

(** Hours in [d] milliseconds, rounded as [Math.round] rounds. *)
Definition roundedHours (d : Z) : Z := Qfloor (inject_Z d / inject_Z 3600000 + (1 # 2)).

(** Hours between two instants, truncated toward zero. *)
Definition truncatedHours (t t0 : Z) : Z := Z.quot (t - t0) 3600000.

(** [clamp(x, min, max)] *)
Definition clamp (x lo hi : number) : number := Math.min (Math.max x lo) hi.

(** The step of each navigation intent. *)
Definition delta (intent : Intent) : number :=
  match intent with
  | previousDay => Fin (-24)
  | previousPeriod => Fin (-3)
  | nextPeriod => Fin 3
  | nextDay => Fin 24
  end.

(** A period tuple without its date, as a day group stores it. *)
Definition period {E : Type} (selector : E * number * Date) : E * number :=
  (fst (fst selector), snd (fst selector)).

(** The date of a period tuple. *)
Definition dateOf {E : Type} (selector : E * number * Date) : Date := snd selector.

(** A group with one more period at its end. *)
Definition extended {E : Type} (groups : list (list (E * number) * Date)) (x : E * number)
  : list (list (E * number) * Date) :=
  match rev groups with
  | [] => []
  | (periods, date) :: before => rev before ++ [(periods ++ [x], date)]
  end.

(** The day of the last period of a sequence ([null] when it is empty). *)
Definition lastDayOf {host : Host} {E : Type} (flat : list (E * number * Date))
  : option number :=
  match rev flat with
  | [] => None
  | x :: _ => Some (getDay (dateOf x))
  end.

(* ===================================================================== *)
(** ** Example data *)
(* ===================================================================== *)

(** A host for the examples: local time is UTC and the date parser knows
    the time stamps the examples use.  The examples hold no string or
    object where a number is expected, so the other conversions are not
    exercised. *)

Definition exampleTimes : list (string * Z) :=
  [ ("2021-03-01T03:00:00Z", 1614567600000%Z);
    ("2021-03-01T06:00:00Z", 1614578400000%Z);
    ("2021-03-01T06:10:00Z", 1614579000000%Z);
    ("2021-03-01T06:45:00Z", 1614581100000%Z);
    ("2021-03-01T09:00:00Z", 1614589200000%Z);
    ("2021-03-01T12:00:00Z", 1614600000000%Z);
    ("2021-03-02T03:00:00Z", 1614654000000%Z);
    ("2021-03-02T06:00:00Z", 1614664800000%Z);
    ("2021-03-02T09:00:00Z", 1614675600000%Z);
    ("2021-03-02T12:00:00Z", 1614686400000%Z) ].

Fixpoint parseExample (s : string) (table : list (string * Z)) : option Z :=
  match table with
  | [] => None
  | (s', t) :: rest => if String.eqb s s' then Some t else parseExample s rest
  end.

Definition utcHost : Host := {|
  StringToNumber := fun _ => NaN;
  ObjectToString := fun _ => Returned "[object Object]";
  StringLessThan := fun _ _ => false;
  Date_parse := fun s => parseExample s exampleTimes;
  LocalTZA := fun _ => 0%Z
|}.

Definition num (q : Q) : value := Number (Fin q).

Definition exampleWind : value := Object [("u", num 5); ("v", num (-3))].

(** A profile entry at elevation [h]. *)
Definition exampleEntry (h : Q) : value :=
  Object [("h", num h); ("t", num 4); ("dt", num 1); ("u", num 10); ("v", num 2);
          ("c", num 30)].

(** A complete hour-record at time [t] with the given profile. *)
Definition exampleHour (t : string) (profile : list value) : value :=
  Object [("t", String t); ("xc", num 40); ("xcf", num 35);
          ("bl", Object [("h", num 1200); ("u", num 8); ("v", num 1);
                         ("c", Array [num 900; num 1500])]);
          ("v", num 23);
          ("p", Array profile);
          ("s", Object [("t", num 12); ("dt", num 6); ("u", num 3); ("v", num 0)]);
          ("iso", num 2100);
          ("r", Object [("t", num 0); ("c", num 0)]);
          ("mslet", num 1013);
          ("c", num 45);
          ("w", Array [exampleWind; exampleWind; exampleWind; exampleWind; exampleWind])].

(** A record without its property [k]. *)
Definition without (k : string) (v : value) : value :=
  match v with
  | Object props => Object (filter (fun kv => negb (String.eqb k (fst kv))) props)
  | other => other
  end.

Definition exampleProfile : list value :=
  [exampleEntry 300; exampleEntry 600; exampleEntry 1200].

(** A location at 500 m with one day of forecasts at the given times. *)
Definition exampleLocation (hours : list value) : value :=
  Object [("h", num 500); ("d", Array [Object [("th", num 1); ("h", Array hours)]])].

Definition exampleMetadata : ForecastMetadata.t :=
  ForecastMetadata.mk (Date_ms 1614556800000) (Date_ms 1614567600000) (Fin 180).

(** A location whose first forecast is three hours after the first time
    step of the run. *)
Definition hourlyLocation : value :=
  exampleLocation [exampleHour "2021-03-01T06:00:00Z" exampleProfile;
                   exampleHour "2021-03-01T09:00:00Z" exampleProfile;
                   exampleHour "2021-03-01T12:00:00Z" exampleProfile].

(** Two forecasts ten minutes apart. *)
Definition closeLocation : value :=
  exampleLocation [exampleHour "2021-03-01T06:00:00Z" exampleProfile;
                   exampleHour "2021-03-01T06:10:00Z" exampleProfile].

(** An hour-record with no [xc]. *)
Definition hourWithoutXc : value :=
  without "xc" (exampleHour "2021-03-01T06:00:00Z" exampleProfile).

(** Seven periods, three on Monday 1 March 2021 and four on Tuesday. *)
Definition examplePeriods : list (nat * number * Date) :=
  [ (0%nat, Fin 3, Date_ms 1614578400000);
    (1%nat, Fin 6, Date_ms 1614589200000);
    (2%nat, Fin 9, Date_ms 1614600000000);
    (3%nat, Fin 24, Date_ms 1614654000000);
    (4%nat, Fin 27, Date_ms 1614664800000);
    (5%nat, Fin 30, Date_ms 1614675600000);
    (6%nat, Fin 33, Date_ms 1614686400000) ].

(* ===================================================================== *)
(** ** The rest of [PeriodSelector.tsx] *)
(* ===================================================================== *)

(** [length()] of [PeriodSelector], as a function of
    [periodSelectorsByDay()]: [reduce((n, ss) => n + ss[0].length, 0)]. *)
Definition PeriodSelector_length {HTMLElement : Type} (groups : list (DayGroup HTMLElement))
  : number :=
  fold_left (fun n ss => number_add n (of_nat (List.length (fst ss)))) groups (Fin 0).

(** The two values of [DetailedViewType]. *)
Inductive DetailedViewType : Type :=
| Meteogram
| Sounding.

Section DetailedView.

(** The diagrams are drawn elsewhere ([diagrams/Meteogram],
    [diagrams/Sounding]): [meteogram] and [sounding] give a key and a
    view, [fallback] is the pair of empty [<div />]. *)
Variable JSXElement : Type.
Variable fallback : JSXElement * JSXElement.
Variable meteogram : LocationForecasts.t -> JSXElement * JSXElement.
Variable sounding : DetailedForecast.t -> value -> JSXElement * JSXElement.

(** [keyAndView()] of [DetailedView]; [None] is [undefined]. *)
Definition keyAndView (detailedView : DetailedViewType)
    (locationForecasts : option LocationForecasts.t) (hourOffset : number)
  : JSXElement * JSXElement :=
  match locationForecasts with
  | None => fallback
  | Some locationForecasts =>
      match detailedView with
      | Meteogram => meteogram locationForecasts
      | Sounding =>
          match atHourOffset locationForecasts hourOffset with
          | None => fallback
          | Some forecast => sounding forecast (LocationForecasts.elevation locationForecasts)
          end
      end
  end.

End DetailedView.

Arguments keyAndView {JSXElement} fallback meteogram sounding detailedView
  locationForecasts hourOffset.

(* ===================================================================== *)
(** ** More vocabulary *)
(* ===================================================================== *)

(** [undefined] or [null]. *)
Definition is_nullish (v : value) : bool :=
  match v with
  | Undefined | Null => true
  | _ => false
  end.

(** The number of the local calendar day an instant falls on. *)
Definition localDay {host : Host} (t : Z) : Z := ((t + LocalTZA t) / msPerDay)%Z.

(** Two dates are valid and their local days are a whole number of weeks
    apart. *)
Definition sameWeekday {host : Host} (d1 d2 : Date) : bool :=
  match d1, d2 with
  | Date_ms t1, Date_ms t2 => ((localDay t2 - localDay t1) mod 7 =? 0)%Z
  | _, _ => false
  end.

(** [y] has the day of the week of [x] (by [===] on [getDay()]). *)
Definition joins {host : Host} {E : Type} (x y : E * number * Date) : bool :=
  number_strict_eq (getDay (dateOf y)) (getDay (dateOf x)).

(** The last period of a run and the first of the next are on different
    days of the week. *)
Definition boundary {host : Host} {E : Type} (c1 c2 : list (E * number * Date)) : bool :=
  match rev c1, c2 with
  | x :: _, y :: _ => negb (joins x y)
  | _, _ => false
  end.

(** The day group of a run of periods: the periods, and the date of the
    first one. *)
Definition groupOf {E : Type} (run : list (E * number * Date))
  : list (E * number) * Date :=
  (map period run, match run with x :: _ => dateOf x | [] => Invalid_Date end).

(** 2^53: up to this magnitude every integer is a double, so that sums
    and differences of integers that stay within it are computed exactly
    by the program. *)
Definition maxExactInteger : Z := 9007199254740992.

Definition exact_integer (z : Z) : Prop := (Z.abs z <= maxExactInteger)%Z.

(** The number is finite and at least [lo] / at most [hi]. *)
Definition at_least (lo : Q) (n : number) : Prop :=
  match n with
  | Fin q => lo <= q
  | _ => False
  end.

Definition at_most (hi : Q) (n : number) : Prop :=
  match n with
  | Fin q => q <= hi
  | _ => False
  end.

(* ===================================================================== *)
(** ** Proof tactics *)
(* ===================================================================== *)

(** Case analysis on every comparison of the goal, each branch with the
    order fact it stands for. *)
Ltac split_Qle :=
  repeat match goal with
         | |- context [Qle_bool ?a ?b] =>
             let E := fresh "E" in
             destruct (Qle_bool a b) eqn:E;
             [ apply Qle_bool_iff in E
             | apply not_true_iff_false in E; rewrite Qle_bool_iff in E;
               apply Qnot_le_lt in E ]
         end.

(** From a sequence of binds that returned, what each step returned. *)
Ltac bind_inv H :=
  repeat match type of H with
         | bind ?m _ = Returned _ =>
             let E := fresh "E" in
             destruct m eqn:E; cbn [bind] in H; [| discriminate H]
         end.

(** The buttons' handlers, unfolded to their comparisons. *)
Ltac unfold_buttons :=
  unfold nextOffset, previousDayBtn_onClick, previousPeriodBtn_onClick,
    nextPeriodBtn_onClick, nextDayBtn_onClick;
  cbn [number_add number_sub Math.max Math.min].

(* ===================================================================== *)
(** * Properties *)
(* ===================================================================== *)

(** ** Numbers *)

Lemma number_ltb_of_Z (a b : Z) : number_ltb (of_Z a) (of_Z b) = (a <? b)%Z.
Proof.
  unfold of_Z; cbn [number_ltb]. destruct (Z.ltb_spec a b) as [H | H].
  - rewrite Zlt_Qlt in H. split_Qle; [lra | reflexivity].
  - rewrite Zle_Qle in H. split_Qle; [reflexivity | lra].
Qed.

Lemma number_leb_of_Z (a b : Z) : number_leb (of_Z a) (of_Z b) = (a <=? b)%Z.
Proof.
  unfold of_Z; cbn [number_leb]. destruct (Z.leb_spec a b) as [H | H].
  - rewrite Zle_Qle in H. split_Qle; [reflexivity | lra].
  - rewrite Zlt_Qlt in H. split_Qle; [lra | reflexivity].
Qed.

Lemma number_strict_eq_of_Z (a b : Z) : number_strict_eq (of_Z a) (of_Z b) = (a =? b)%Z.
Proof.
  unfold of_Z; cbn [number_strict_eq]. destruct (Z.eqb_spec a b) as [H | H].
  - subst. apply Qeq_bool_iff. reflexivity.
  - destruct (Qeq_bool (inject_Z a) (inject_Z b)) eqn:E; [| reflexivity].
    exfalso. apply H. apply inject_Z_injective. apply Qeq_bool_eq. exact E.
Qed.

(** ** Rounding to the nearest hour *)

Lemma round_bounds (d : Z) :
  let n := Qfloor (inject_Z d / inject_Z 3600000 + (1 # 2)) in
  (3600000 * n - 1800000 <= d < 3600000 * n + 1800000)%Z.
Proof.
  intros n.
  pose proof (Qfloor_le (inject_Z d / inject_Z 3600000 + (1 # 2))) as Hle.
  pose proof (Qlt_floor (inject_Z d / inject_Z 3600000 + (1 # 2))) as Hlt.
  fold n in Hle, Hlt.
  rewrite inject_Z_plus in Hlt.
  assert (Hx : inject_Z d / inject_Z 3600000 * inject_Z 3600000 == inject_Z d).
  { field. }
  set (x := inject_Z d / inject_Z 3600000) in *.
  rewrite Zle_Qle, Zlt_Qlt.
  unfold Z.sub. rewrite !inject_Z_plus, inject_Z_opp, !inject_Z_mult.
  change (inject_Z 3600000) with (3600000 # 1) in *.
  change (inject_Z 1800000) with (1800000 # 1).
  change (inject_Z 1) with (1 # 1) in Hlt.
  split; lra.
Qed.

Lemma nearest_of_bounds (d n : Z) :
  (3600000 * n - 1800000 <= d < 3600000 * n + 1800000)%Z ->
  forall m : Z, (Z.abs (d - 3600000 * n) <= Z.abs (d - 3600000 * m))%Z.
Proof. intros H m. lia. Qed.

Lemma round_up_from_half (d n : Z) :
  (3600000 * n - 1800000 <= d < 3600000 * n + 1800000)%Z ->
  (0 <= d)%Z -> (1800000 <= d mod 3600000)%Z ->
  n = (Z.quot d 3600000 + 1)%Z.
Proof.
  intros H Hd Hm. rewrite Z.quot_div_nonneg by lia.
  pose proof (Z.div_mod d 3600000 ltac:(lia)).
  pose proof (Z.mod_pos_bound d 3600000 ltac:(lia)). lia.
Qed.

Lemma hourOffset_valid (f : DetailedForecast.t) (t t0 : Z) :
  DetailedForecast.time f = Date_ms t ->
  hourOffsetSinceFirstTimeStep f (Date_ms t0) = of_Z (roundedHours (t - t0)).
Proof.
  intros Ht. unfold hourOffsetSinceFirstTimeStep, roundedHours. rewrite Ht.
  cbn [getTime of_Z number_sub number_div Math.round]. unfold of_Z. do 2 f_equal.
  unfold Z.sub. rewrite inject_Z_plus, inject_Z_opp. reflexivity.
Qed.

Lemma hourOffset_invalid (f : DetailedForecast.t) (firstTimeStep : Date) :
  DetailedForecast.time f = Invalid_Date \/ firstTimeStep = Invalid_Date ->
  hourOffsetSinceFirstTimeStep f firstTimeStep = NaN.
Proof.
  unfold hourOffsetSinceFirstTimeStep.
  intros [H | H]; rewrite H; [| destruct (DetailedForecast.time f)]; reflexivity.
Qed.

(** C7.  For every forecast instant [t] and first time step [t0] (in
    milliseconds) at most 2^53 ms apart (some 285,000 years; up to
    there the program's subtraction is exact),
    [hourOffsetSinceFirstTimeStep] is an integer [n] of hours with
    [t - t0] within half an hour of it, a half going up: it is the
    integer nearest to [(t - t0) / 1 hour], and whenever the fraction of
    an hour is a half or more it is one above the truncated quotient.
    With an invalid date on either side the result is [NaN]. *)
Theorem hourOffset_rounds_to_nearest_hour :
  forall (f : DetailedForecast.t) (firstTimeStep : Date),
    match DetailedForecast.time f, firstTimeStep with
    | Date_ms t, Date_ms t0 =>
        exact_integer (t - t0) ->
        exists n : Z,
          hourOffsetSinceFirstTimeStep f firstTimeStep = of_Z n
          /\ (3600000 * n - 1800000 <= t - t0 < 3600000 * n + 1800000)%Z
          /\ (forall m : Z, Z.abs (t - t0 - 3600000 * n) <= Z.abs (t - t0 - 3600000 * m))%Z
          /\ ((0 <= t - t0)%Z -> (1800000 <= (t - t0) mod 3600000)%Z ->
              n = (truncatedHours t t0 + 1)%Z)
    | _, _ => hourOffsetSinceFirstTimeStep f firstTimeStep = NaN
    end.
Proof.
  intros f firstTimeStep.
  destruct (DetailedForecast.time f) as [| t] eqn:Ht.
  - apply hourOffset_invalid. now left.
  - destruct firstTimeStep as [| t0].
    + apply hourOffset_invalid. now right.
    + intros _. exists (roundedHours (t - t0)).
      pose proof (round_bounds (t - t0)) as Hb. cbv zeta in Hb.
      fold (roundedHours (t - t0)) in Hb.
      split; [now apply hourOffset_valid |].
      split; [exact Hb |].
      split; [now apply nearest_of_bounds |].
      intros Hd Hm. unfold truncatedHours. now apply round_up_from_half.
Qed.

(** A forecast 45 minutes after the first time step is at offset 1,
    where truncation would give 0. *)
Lemma hourOffset_rounds_witness :
  exists f : DetailedForecast.t,
    DetailedForecast_new (host := utcHost)
      (exampleHour "2021-03-01T06:45:00Z" exampleProfile) (num 500)
    = Returned f
    /\ exact_integer (1614581100000 - 1614578400000)
    /\ hourOffsetSinceFirstTimeStep f (Date_ms 1614578400000) = of_Z 1
    /\ truncatedHours 1614581100000 1614578400000 = 0%Z.
Proof.
  eexists. split; [vm_compute; reflexivity |].
  assert (Hexact : exact_integer (1614581100000 - 1614578400000))
    by (vm_compute; discriminate).
  split; [exact Hexact |]. split; [| reflexivity].
  match goal with
  | |- hourOffsetSinceFirstTimeStep ?f ?d = _ =>
      destruct (hourOffset_rounds_to_nearest_hour f d Hexact) as [n [Hn [_ [_ Hup]]]]
  end.
  rewrite Hn. f_equal. apply Hup; vm_compute; discriminate.
Defined.

(** ** Navigation *)

Lemma nextOffset_clamp_in_range (q l : Q) (intent : Intent) :
  3 <= q -> q <= l ->
  same_number (nextOffset (Fin q) intent (Fin l))
              (clamp (number_add (Fin q) (delta intent)) (Fin 3) (Fin l)).
Proof.
  intros Hlo Hhi.
  destruct intent; unfold nextOffset, clamp, delta, previousDayBtn_onClick,
    previousPeriodBtn_onClick, nextPeriodBtn_onClick, nextDayBtn_onClick;
    cbn [number_add number_sub Math.max Math.min];
    split_Qle; cbn [same_number Math.min]; split_Qle; cbn [same_number]; lra.
Qed.

(** C3.  For every current offset [q] with [3 <= q <= latest] and each of
    the four navigation intents (steps -24, -3, +3, +24), the offset the
    button hands on is [clamp(q + delta, 3, latest)]; and
    [nextOffset(3, previousPeriod) = 3], [nextOffset(180, nextDay) = 180]
    and [nextOffset(10, nextPeriod) = 13] with [latest = 180]. *)
Theorem nextOffset_is_clamped_step :
  (forall (q latest : Q) (intent : Intent),
      3 <= q -> q <= latest ->
      same_number (nextOffset (Fin q) intent (Fin latest))
                  (clamp (number_add (Fin q) (delta intent)) (Fin 3) (Fin latest)))
  /\ nextOffset (Fin 3) previousPeriod (Fin 180) = Fin 3
  /\ nextOffset (Fin 180) nextDay (Fin 180) = Fin 180
  /\ nextOffset (Fin 10) nextPeriod (Fin 180) = Fin 13.
Proof.
  split; [exact nextOffset_clamp_in_range |].
  repeat split; reflexivity.
Qed.

(** From offset 27 of a run that ends at 180, a day back is offset 3. *)
Lemma nextOffset_witness :
  same_number (nextOffset (Fin 27) previousDay (Fin 180))
              (clamp (number_add (Fin 27) (delta previousDay)) (Fin 3) (Fin 180)).
Proof.
  apply (proj1 nextOffset_is_clamped_step 27 180 previousDay); lra.
Defined.

(** ** Day grouping *)

Lemma forEach_app {S A : Type} (f : S -> A -> outcome S) (l1 l2 : list A) (s : S) :
  forEach f (l1 ++ l2) s = (s' <- forEach f l1 s ;; forEach f l2 s').
Proof.
  revert s. induction l1 as [| x l1 IH]; intros s; cbn; [reflexivity |].
  destruct (f s x); cbn; [apply IH | reflexivity].
Qed.

Section Grouping.

Context {host : Host} {E : Type}.

Implicit Types (groups : list (DayGroup E)) (flat : list (E * number * Date)).

Lemma push_last_snoc groups (ps : list (E * number)) (d : Date) (x : E * number) :
  push_last (groups ++ [(ps, d)]) x = Returned (groups ++ [(ps ++ [x], d)]).
Proof.
  unfold push_last. rewrite length_app. cbn [List.length].
  replace (List.length groups + 1 - 1)%nat with (List.length groups) by lia.
  rewrite nth_error_app2 by lia. rewrite Nat.sub_diag. cbn [nth_error].
  rewrite firstn_app, Nat.sub_diag, firstn_all. cbn [firstn]. now rewrite app_nil_r.
Qed.

Lemma extended_snoc groups (ps : list (E * number)) (d : Date) (x : E * number) :
  extended (groups ++ [(ps, d)]) x = groups ++ [(ps ++ [x], d)].
Proof.
  unfold extended. rewrite rev_app_distr. cbn. now rewrite rev_involutive.
Qed.

Lemma lastDayOf_snoc flat (x : E * number * Date) :
  lastDayOf (flat ++ [x]) = Some (getDay (dateOf x)).
Proof. unfold lastDayOf. now rewrite rev_app_distr. Qed.

(** The loop invariant: after any prefix the groups hold that prefix,
    each group has a period, and [lastDay] is the day of the last one. *)
Lemma forEach_groupPeriod flat :
  exists groups,
    forEach groupPeriod flat ([], None) = Returned (groups, lastDayOf flat)
    /\ List.concat (map fst groups) = map period flat
    /\ Forall (fun g => fst g <> []) groups.
Proof.
  induction flat as [| x flat IH] using rev_ind.
  - exists []. repeat split; constructor.
  - destruct IH as [groups [Hrun [Hcat Hne]]].
    rewrite forEach_app, Hrun, lastDayOf_snoc. cbn [bind forEach].
    destruct x as [[hourSelector hourOffset] date]. cbn [groupPeriod dateOf snd].
    destruct (sameDay (getDay date) (lastDayOf flat)) eqn:Hday.
    + (* same group as the previous period: there is one *)
      destruct (exists_last (l := groups)) as [before [[ps d] ->]].
      { intros ->. destruct flat as [| y flat] using rev_ind; [discriminate |].
        rewrite map_app in Hcat. destruct (map period flat); discriminate. }
      rewrite push_last_snoc. cbn [bind].
      exists (before ++ [(ps ++ [(hourSelector, hourOffset)], d)]).
      split; [reflexivity |]. split.
      * rewrite !map_app, !concat_app in *. cbn in *.
        rewrite !app_nil_r in *. now rewrite app_assoc, Hcat.
      * apply Forall_app in Hne as [Hb _]. apply Forall_app. split; [exact Hb |].
        constructor; [| constructor]. cbn. now destruct ps.
    + cbn [bind].
      exists (groups ++ [([(hourSelector, hourOffset)], date)]).
      split; [reflexivity |]. split.
      * rewrite !map_app, concat_app. f_equal. exact Hcat.
      * apply Forall_app. split; [exact Hne |]. constructor; [discriminate | constructor].
Qed.

Lemma periodSelectorsByDay_total flat :
  exists groups,
    periodSelectorsByDay flat = Returned groups
    /\ List.concat (map fst groups) = map period flat
    /\ Forall (fun g => fst g <> []) groups.
Proof.
  destruct (forEach_groupPeriod flat) as [groups [Hrun H]].
  exists groups. unfold periodSelectorsByDay. rewrite Hrun. now split.
Qed.

Lemma periodSelectorsByDay_next flat (x y : E * number * Date) :
  exists groups,
    periodSelectorsByDay (flat ++ [x]) = Returned groups
    /\ periodSelectorsByDay (flat ++ [x; y])
       = Returned (if number_strict_eq (getDay (dateOf y)) (getDay (dateOf x))
                   then extended groups (period y)
                   else groups ++ [([period y], dateOf y)]).
Proof.
  destruct (forEach_groupPeriod (flat ++ [x])) as [groups [Hrun [Hcat _]]].
  exists groups. unfold periodSelectorsByDay.
  split; [now rewrite Hrun |].
  change (flat ++ [x; y]) with (flat ++ [x] ++ [y]).
  rewrite app_assoc, forEach_app, Hrun, lastDayOf_snoc. cbn [bind fst forEach].
  destruct y as [[hourSelector hourOffset] date].
  cbn [groupPeriod sameDay period fst snd].
  change (dateOf (hourSelector, hourOffset, date)) with date.
  destruct (number_strict_eq (getDay date) (getDay (dateOf x))); [| reflexivity].
  destruct (exists_last (l := groups)) as [before [[ps d] ->]].
  { intros ->. rewrite map_app in Hcat. destruct (map period flat); discriminate. }
  now rewrite push_last_snoc, extended_snoc.
Qed.

Lemma periodSelectorsByDay_first (x : E * number * Date) :
  periodSelectorsByDay [x] = Returned [([period x], dateOf x)].
Proof. destruct x as [[hourSelector hourOffset] date]. reflexivity. Qed.

End Grouping.

(** The periods handed to the grouping carry the offsets and dates of
    [forecastOffsetAndDates], in order. *)
Lemma flatPeriodSelectors_offsets {E : Type} (periodSpan : bool -> number -> Date -> E)
    (forecastOffsetAndDates : list (number * Date)) (currentHourOffset : number) :
  map (fun selector => (snd (fst selector), snd selector))
      (flatPeriodSelectors periodSpan forecastOffsetAndDates currentHourOffset)
  = forecastOffsetAndDates.
Proof.
  unfold flatPeriodSelectors. rewrite map_map.
  induction forecastOffsetAndDates as [| [hourOffset date] l IH]; cbn; [reflexivity |].
  now rewrite IH.
Qed.

(** C2.  Day grouping never fails, and its groups partition the input:
    concatenated in order they are the input periods (each with its hour
    offset; a group keeps one date, that of the period that opened it),
    nothing dropped, duplicated or reordered, and every group holds a
    period.  The first period opens a group; a period that follows
    another joins the last group exactly when its day of the week is
    that of the one before it ([===] on [getDay()]) and opens a new
    group otherwise. *)
Theorem periodSelectorsByDay_partitions_by_day :
  forall (host : Host) (E : Type),
    (forall flat : list (E * number * Date),
        exists groups,
          periodSelectorsByDay flat = Returned groups
          /\ List.concat (map fst groups) = map period flat
          /\ Forall (fun g => fst g <> []) groups)
    /\ (forall x : E * number * Date,
          periodSelectorsByDay [x] = Returned [([period x], dateOf x)])
    /\ (forall (flat : list (E * number * Date)) (x y : E * number * Date),
          exists groups,
            periodSelectorsByDay (flat ++ [x]) = Returned groups
            /\ periodSelectorsByDay (flat ++ [x; y])
               = Returned (if number_strict_eq (getDay (dateOf y)) (getDay (dateOf x))
                           then extended groups (period y)
                           else groups ++ [([period y], dateOf y)])).
Proof.
  intros host E. split; [| split].
  - apply periodSelectorsByDay_total.
  - apply periodSelectorsByDay_first.
  - apply periodSelectorsByDay_next.
Qed.

(** ** Day labels *)

Lemma dayEl_label_integer {E : Type} (k : Z) (periods : list (E * number)) (date : Date) :
  dayEl_label (of_Z k) periods date
  = if (Z.of_nat (List.length periods) =? k)%Z
    then toLocaleDateString date "2-digit" "short" "short"
    else Text nbsp.
Proof. unfold dayEl_label, of_nat. now rewrite number_strict_eq_of_Z. Qed.

(** C6.  The day element of a group shows the date (formatted with a
    short weekday, the day and a short month) when the number of its
    periods [===] [periodsPerDay] and a no-break space otherwise; for an
    integer [periodsPerDay] that is: the date if and only if the group
    has exactly that many periods.  Every group of the grouping is
    rendered this way, and with [periodsPerDay = 3] the periods of a
    Monday (three) and a Tuesday (four) give a labelled group of three
    and an unlabelled group of four. *)
Theorem day_label_iff_full_day :
  (forall (E : Type) (periodsPerDay : number) (periods : list (E * number)) (date : Date),
      label (dayEl periodsPerDay (periods, date))
      = if number_strict_eq (of_nat (List.length periods)) periodsPerDay
        then toLocaleDateString date "2-digit" "short" "short"
        else Text nbsp)
  /\ (forall (E : Type) (k : Z) (periods : list (E * number)) (date : Date),
        (label (dayEl (of_Z k) (periods, date))
         = toLocaleDateString date "2-digit" "short" "short"
         <-> Z.of_nat (List.length periods) = k)
        /\ (label (dayEl (of_Z k) (periods, date)) = Text nbsp
            <-> Z.of_nat (List.length periods) <> k))
  /\ (forall (host : Host) (E : Type) (periodsPerDay : number)
             (flat : list (E * number * Date)),
        exists groups,
          periodSelectorsByDay flat = Returned groups
          /\ periodSelectors periodsPerDay flat = Returned (map (dayEl periodsPerDay) groups))
  /\ (exists full partial : DayEl nat,
        periodSelectors (host := utcHost) (Fin 3) examplePeriods = Returned [full; partial]
        /\ columns full = 3%nat
        /\ label full = toLocaleDateString (Date_ms 1614578400000) "2-digit" "short" "short"
        /\ columns partial = 4%nat
        /\ label partial = Text nbsp).
Proof.
  split; [| split; [| split]].
  - reflexivity.
  - intros E k periods date. cbn [dayEl label]. rewrite dayEl_label_integer.
    destruct (Z.eqb_spec (Z.of_nat (List.length periods)) k) as [Heq | Hneq].
    + split; split; intros H; congruence.
    + split; split; intros H; congruence.
  - intros host E periodsPerDay flat.
    destruct (periodSelectorsByDay_total flat) as [groups [Hrun _]].
    exists groups. split; [exact Hrun |].
    unfold periodSelectors. now rewrite Hrun.
  - eexists. eexists. split; [vm_compute; reflexivity |].
    repeat split.
Qed.

(** A group of three periods in a run with three periods per day. *)
Lemma day_label_witness :
  label (dayEl (of_Z 3) ([(0%nat, Fin 3); (1%nat, Fin 6); (2%nat, Fin 9)], Date_ms 1614578400000))
  = toLocaleDateString (Date_ms 1614578400000) "2-digit" "short" "short".
Proof.
  apply (proj1 (proj2 day_label_iff_full_day) nat 3%Z). reflexivity.
Defined.

(** ** The click on a day label *)

(** C10.  A click on a day label hands on the hour offset of the
    group's second period (index 1) whatever the group; with fewer than
    two periods there is no index 1 and the handler throws instead of
    handing on an offset.  It hands on an offset if and only if the group
    has at least two periods, and a group of a single period does come
    out of the grouping (a sequence of one period gives one). *)
Theorem day_click_selects_second_period :
  (forall (E : Type) (periodsPerDay : number) (p0 p1 : E * number)
          (rest : list (E * number)) (date : Date),
      onClick (dayEl periodsPerDay (p0 :: p1 :: rest, date)) = Returned (snd p1))
  /\ (forall (E : Type) (periodsPerDay : number) (p0 : E * number) (date : Date),
        onClick (dayEl periodsPerDay ([p0], date)) = Thrown TypeError)
  /\ (forall (E : Type) (periodsPerDay : number) (periods : list (E * number)) (date : Date),
        (exists hourOffset, onClick (dayEl periodsPerDay (periods, date)) = Returned hourOffset)
        <-> (2 <= List.length periods)%nat)
  /\ (forall (host : Host) (E : Type) (periodsPerDay : number) (x : E * number * Date),
        exists el,
          periodSelectors periodsPerDay [x] = Returned [el]
          /\ columns el = 1%nat
          /\ onClick el = Thrown TypeError).
Proof.
  split; [| split; [| split]].
  - reflexivity.
  - reflexivity.
  - intros E periodsPerDay periods date. cbn [dayEl onClick].
    destruct periods as [| p0 [| p1 rest]]; cbn; split.
    + intros [? H]; discriminate.
    + lia.
    + intros [? H]; discriminate.
    + lia.
    + lia.
    + intros _. now exists (snd p1).
  - intros host E periodsPerDay [[hourSelector hourOffset] date].
    eexists. split; [reflexivity |]. split; reflexivity.
Qed.

(** The second of three periods is the one a click selects. *)
Lemma day_click_witness :
  exists hourOffset,
    onClick (dayEl (Fin 3) ([(0%nat, Fin 3); (1%nat, Fin 6); (2%nat, Fin 9)],
                            Date_ms 1614578400000))
    = Returned hourOffset.
Proof.
  apply (proj1 (proj2 (proj2 day_click_selects_second_period)) nat). cbn. lia.
Defined.

(** ** The temporal index *)

Lemma fold_left_concat {A : Type} (ls : list (list A)) (acc : list A) :
  fold_left (fun x y => x ++ y) ls acc = acc ++ List.concat ls.
Proof.
  revert acc. induction ls as [| l ls IH]; intros acc; cbn.
  - now rewrite app_nil_r.
  - now rewrite IH, app_assoc.
Qed.

Lemma flatForecasts_concat (lf : LocationForecasts.t) :
  flatForecasts lf
  = List.concat (map DayForecasts.forecasts (LocationForecasts.dayForecasts lf)).
Proof. unfold flatForecasts. now rewrite fold_left_concat. Qed.

(** [find] returns the first element that passes the test. *)
Lemma find_first {A : Type} (p : A -> bool) (l : list A) (a : A) :
  find p l = Some a
  <-> exists before after,
        l = before ++ a :: after /\ p a = true /\ Forall (fun x => p x = false) before.
Proof.
  induction l as [| x l IH]; cbn.
  - split; [discriminate |]. intros [[| ? ?] [? [H _]]]; discriminate.
  - destruct (p x) eqn:Hx.
    + split.
      * intros [= ->]. exists [], l. now repeat split.
      * intros [[| y before] [after [Hl [Ha Hb]]]]; cbn in Hl; injection Hl as -> ->.
        -- reflexivity.
        -- inversion Hb; congruence.
    + rewrite IH. split.
      * intros [before [after [-> [Ha Hb]]]].
        exists (x :: before), after. repeat split; [exact Ha | now constructor].
      * intros [[| y before] [after [Hl [Ha Hb]]]]; cbn in Hl; injection Hl as -> ->.
        -- congruence.
        -- exists before, after. repeat split; [exact Ha | now inversion Hb].
Qed.

Lemma find_none_iff {A : Type} (p : A -> bool) (l : list A) :
  find p l = None <-> Forall (fun x => p x = false) l.
Proof.
  induction l as [| x l IH]; cbn.
  - split; [constructor | reflexivity].
  - destruct (p x) eqn:Hx.
    + split; [discriminate |]. intros H. inversion H; congruence.
    + rewrite IH. split; [now constructor | now inversion 1].
Qed.

Lemma increasing_map {A B : Type} (R : B -> B -> bool) (f : A -> B) (l : list A) :
  increasing R (map f l) = increasing (fun x y => R (f x) (f y)) l.
Proof.
  induction l as [| x [| y l] IH]; try reflexivity.
  cbn [map increasing] in *. now rewrite IH.
Qed.

Lemma increasing_impl {A : Type} (R R' : A -> A -> bool) (l : list A) :
  (forall x y, R x y = true -> R' x y = true) ->
  increasing R l = true -> increasing R' l = true.
Proof.
  intros HR. induction l as [| x [| y l] IH]; try reflexivity.
  cbn [increasing] in *. intros [Hxy Hl]%andb_prop.
  now rewrite (HR _ _ Hxy), IH.
Qed.

(** In an increasing sequence for a transitive order the head is below
    every later element. *)
Lemma increasing_head {A : Type} (R : A -> A -> bool) (x : A) (l : list A) :
  (forall a b c, R a b = true -> R b c = true -> R a c = true) ->
  increasing R (x :: l) = true -> Forall (fun y => R x y = true) l.
Proof.
  intros Htrans. revert x. induction l as [| y l IH]; intros x H; [constructor |].
  cbn [increasing] in H. apply andb_prop in H as [Hxy Hl].
  constructor; [exact Hxy |].
  apply (Forall_impl _ (fun z Hz => Htrans x y z Hxy Hz)), IH, Hl.
Qed.

Lemma Date_ltb_valid (d1 d2 : Date) :
  Date_ltb d1 d2 = true <-> exists t1 t2, d1 = Date_ms t1 /\ d2 = Date_ms t2 /\ (t1 < t2)%Z.
Proof.
  unfold Date_ltb. destruct d1 as [| t1], d2 as [| t2]; cbn [getTime].
  1-3: split; [discriminate | intros [? [? [? [? ?]]]]; discriminate].
  rewrite number_ltb_of_Z, Z.ltb_lt. split.
  - intros H. now exists t1, t2.
  - now intros [? [? [[= ->] [[= ->] H]]]].
Qed.

Lemma Date_ltb_trans (a b c : Date) :
  Date_ltb a b = true -> Date_ltb b c = true -> Date_ltb a c = true.
Proof.
  rewrite !Date_ltb_valid.
  intros [t1 [t2 [-> [-> H12]]]] [t2' [t3 [[= <-] [-> H23]]]].
  exists t1, t3. repeat split. lia.
Qed.

Lemma roundedHours_monotone (d1 d2 : Z) :
  (d1 <= d2)%Z -> (roundedHours d1 <= roundedHours d2)%Z.
Proof.
  intros H. pose proof (round_bounds d1) as H1. pose proof (round_bounds d2) as H2.
  cbv zeta in H1, H2. fold (roundedHours d1) in H1. fold (roundedHours d2) in H2. lia.
Qed.

Lemma roundedHours_strict (d1 d2 : Z) :
  (d1 + 3600000 <= d2)%Z -> (roundedHours d1 < roundedHours d2)%Z.
Proof.
  intros H. pose proof (round_bounds d1) as H1. pose proof (round_bounds d2) as H2.
  cbv zeta in H1, H2. fold (roundedHours d1) in H1. fold (roundedHours d2) in H2. lia.
Qed.

Section OffsetOrder.

Variable lf : LocationForecasts.t.
Variable t0 : Z.
Hypothesis firstTimeStep_valid :
  ForecastMetadata.firstTimeStep (LocationForecasts.metadata lf) = Date_ms t0.

Lemma offsetOf_valid (f : DetailedForecast.t) (t : Z) :
  DetailedForecast.time f = Date_ms t -> offsetOf lf f = of_Z (roundedHours (t - t0)).
Proof.
  intros Ht. unfold offsetOf. rewrite firstTimeStep_valid. now apply hourOffset_valid.
Qed.

Lemma offsetOf_monotone (f g : DetailedForecast.t) :
  Date_ltb (DetailedForecast.time f) (DetailedForecast.time g) = true ->
  number_leb (offsetOf lf f) (offsetOf lf g) = true.
Proof.
  intros [t1 [t2 [H1 [H2 Hlt]]]]%Date_ltb_valid.
  rewrite (offsetOf_valid f t1 H1), (offsetOf_valid g t2 H2), number_leb_of_Z.
  apply Z.leb_le, roundedHours_monotone. lia.
Qed.

Lemma offsetOf_strict (f g : DetailedForecast.t) :
  hour_apart (DetailedForecast.time f) (DetailedForecast.time g) = true ->
  number_ltb (offsetOf lf f) (offsetOf lf g) = true.
Proof.
  unfold hour_apart.
  destruct (DetailedForecast.time f) as [| t1] eqn:H1; [discriminate |].
  destruct (DetailedForecast.time g) as [| t2] eqn:H2; [discriminate |].
  intros Hgap%Z.leb_le.
  rewrite (offsetOf_valid f t1 H1), (offsetOf_valid g t2 H2), number_ltb_of_Z.
  apply Z.ltb_lt, roundedHours_strict. lia.
Qed.

End OffsetOrder.

Lemma offsetAndDates_offsets (lf : LocationForecasts.t) :
  map fst (offsetAndDates lf) = map (offsetOf lf) (flatForecasts lf).
Proof. unfold offsetAndDates. rewrite map_map. reflexivity. Qed.

Lemma offsetAndDates_dates (lf : LocationForecasts.t) :
  map snd (offsetAndDates lf) = map DetailedForecast.time (flatForecasts lf).
Proof. unfold offsetAndDates. rewrite map_map. reflexivity. Qed.




Lemma offset_three_valid (lf : LocationForecasts.t) (f : DetailedForecast.t) :
  same_number (offsetOf lf f) (Fin 3) ->
  exists t t0,
    DetailedForecast.time f = Date_ms t
    /\ ForecastMetadata.firstTimeStep (LocationForecasts.metadata lf) = Date_ms t0
    /\ roundedHours (t - t0) = 3%Z.
Proof.
  intros H.
  destruct (DetailedForecast.time f) as [| t] eqn:Ht.
  { unfold offsetOf in H. rewrite hourOffset_invalid in H by now left. contradiction. }
  destruct (ForecastMetadata.firstTimeStep (LocationForecasts.metadata lf)) as [| t0] eqn:Ht0.
  { unfold offsetOf in H. rewrite hourOffset_invalid in H by now right. contradiction. }
  exists t, t0. repeat split.
  rewrite (offsetOf_valid lf t0 Ht0 f t Ht) in H. cbn in H.
  now apply (inject_Z_injective (roundedHours (t - t0)) 3).
Qed.

(** C4.  [atHourOffset(offset)] returns a forecast exactly when that
    forecast is the first of the flattened sequence (the days'
    forecasts, concatenated in order) whose hour offset [===] the
    requested one, and returns [undefined] exactly when no forecast has
    that offset.  In particular, when the forecasts are in chronological
    order and the first one is at offset 3, [atHourOffset(0)] is
    [undefined]: nothing nearby is returned in its place. *)
Theorem atHourOffset_exact_match :
  (forall (lf : LocationForecasts.t) (hourOffset : number) (f : DetailedForecast.t),
      atHourOffset lf hourOffset = Some f
      <-> exists before after,
            flatForecasts lf = before ++ f :: after
            /\ number_strict_eq (offsetOf lf f) hourOffset = true
            /\ Forall (fun g => number_strict_eq (offsetOf lf g) hourOffset = false) before)
  /\ (forall (lf : LocationForecasts.t) (hourOffset : number),
        atHourOffset lf hourOffset = None
        <-> Forall (fun g => number_strict_eq (offsetOf lf g) hourOffset = false)
                   (flatForecasts lf))
  /\ (forall lf : LocationForecasts.t,
        flatForecasts lf
        = List.concat (map DayForecasts.forecasts (LocationForecasts.dayForecasts lf)))
  /\ (forall (lf : LocationForecasts.t) (first : DetailedForecast.t)
             (rest : list DetailedForecast.t),
        flatForecasts lf = first :: rest ->
        increasing Date_ltb (map DetailedForecast.time (flatForecasts lf)) = true ->
        same_number (offsetOf lf first) (Fin 3) ->
        atHourOffset lf (Fin 0) = None).
Proof.
  split; [| split; [| split]].
  - intros lf hourOffset f.
    apply (find_first (fun g => number_strict_eq (offsetOf lf g) hourOffset)).
  - intros lf hourOffset.
    apply (find_none_iff (fun g => number_strict_eq (offsetOf lf g) hourOffset)).
  - apply flatForecasts_concat.
  - intros lf first rest Hflat Hsorted Hfirst.
    apply (find_none_iff (fun g => number_strict_eq (offsetOf lf g) (Fin 0))).
    destruct (offset_three_valid lf first Hfirst) as [t1 [t0 [Ht1 [Ht0 Hthree]]]].
    assert (Hoff : forall g t, DetailedForecast.time g = Date_ms t -> (t1 <= t)%Z ->
                               number_strict_eq (offsetOf lf g) (Fin 0) = false).
    { intros g t Ht Hle. rewrite (offsetOf_valid lf t0 Ht0 g t Ht).
      change (Fin 0) with (of_Z 0). rewrite number_strict_eq_of_Z. apply Z.eqb_neq.
      pose proof (roundedHours_monotone (t1 - t0) (t - t0) ltac:(lia)). lia. }
    rewrite Hflat in *. rewrite increasing_map in Hsorted.
    constructor.
    + apply (Hoff first t1 Ht1). lia.
    + apply increasing_head in Hsorted.
      * revert Hsorted. apply Forall_impl. intros g Hg.
        apply Date_ltb_valid in Hg as [t1' [t [H1 [Ht Hlt]]]].
        rewrite Ht1 in H1. injection H1 as <-. apply (Hoff g t Ht). lia.
      * intros a b c. apply Date_ltb_trans.
Qed.

(** The decoded example location has forecasts at offsets 3, 6 and 9 and
    none at offset 0. *)
Lemma atHourOffset_witness :
  exists lf : LocationForecasts.t,
    LocationForecasts_new (host := utcHost) hourlyLocation exampleMetadata (Fin 45) (Fin 9)
    = Returned lf
    /\ map fst (offsetAndDates lf) = [Fin 3; Fin 6; Fin 9]
    /\ atHourOffset lf (Fin 0) = None.
Proof.
  eexists. split; [vm_compute; reflexivity |]. split; [vm_compute; reflexivity |].
  eapply (proj2 (proj2 (proj2 atHourOffset_exact_match))).
  - reflexivity.
  - reflexivity.
  - vm_compute. reflexivity.
Defined.

(** ** The decoder on records of the declared shape *)

Lemma get_field (v : value) (k : string) :
  is_object v = true -> get v k = Returned (field v k).
Proof. destruct v; try discriminate. reflexivity. Qed.

Lemma index_array (v : value) (i : nat) :
  is_array v = true -> index v i = Returned (nth i (elements_of v) Undefined).
Proof. destruct v; try discriminate. reflexivity. Qed.

Lemma as_array_elements (v : value) :
  is_array v = true -> as_array v = Returned (elements_of v).
Proof. destruct v; try discriminate. reflexivity. Qed.

Lemma mapM_total {A B : Type} (f : A -> outcome B) (g : A -> B) (l : list A) :
  Forall (fun x => f x = Returned (g x)) l -> mapM f l = Returned (map g l).
Proof.
  induction 1 as [| x l Hx _ IH]; cbn; [reflexivity |]. now rewrite Hx, IH.
Qed.

Lemma filterM_total {A : Type} (p : A -> outcome bool) (q : A -> bool) (l : list A) :
  Forall (fun x => p x = Returned (q x)) l -> filterM p l = Returned (filter q l).
Proof.
  induction 1 as [| x l Hx _ IH]; cbn; [reflexivity |]. now rewrite Hx, IH.
Qed.

Lemma mapM_Forall2 {A B : Type} (f : A -> outcome B) (R : A -> B -> Prop) (l : list A) :
  Forall (fun x => exists y, f x = Returned y /\ R x y) l ->
  exists ys, mapM f l = Returned ys /\ Forall2 R l ys.
Proof.
  induction 1 as [| x l [y [Hy HR]] _ [ys [Hys HRs]]]; cbn.
  - exists []. split; [reflexivity | constructor].
  - exists (y :: ys). rewrite Hy, Hys. split; [reflexivity | now constructor].
Qed.

Lemma Forall2_concat {A B : Type} (R : A -> B -> Prop) (ls : list (list A))
    (ms : list (list B)) :
  Forall2 (Forall2 R) ls ms -> Forall2 R (List.concat ls) (List.concat ms).
Proof.
  induction 1 as [| l m ls ms Hlm _ IH]; cbn; [constructor |]. now apply Forall2_app.
Qed.

Lemma Forall2_maps {A B C D : Type} (R : C -> D -> Prop) (g : A -> C) (h : B -> D)
    (l : list A) (m : list B) :
  Forall2 (fun a b => R (g a) (h b)) l m -> Forall2 R (map g l) (map h m).
Proof. induction 1; cbn; constructor; assumption. Qed.

Section DecoderFacts.

Context {host : Host}.

Lemma ToPrimitive_primitive (v : value) :
  is_primitive v = true -> ToPrimitive v = Returned v.
Proof. destruct v; try discriminate; reflexivity. Qed.

Lemma js_div_primitive (v : value) (k : positive) :
  is_primitive v = true -> js_div v k = Returned (number_div (ToNumber_primitive v) k).
Proof. intros H. unfold js_div, ToNumber. now rewrite ToPrimitive_primitive. Qed.

Lemma Date_new_primitive (v : value) :
  is_primitive v = true -> exists time, Date_new v = Returned time.
Proof.
  intros H. unfold Date_new. rewrite ToPrimitive_primitive by exact H. cbn [bind].
  destruct v; eauto.
Qed.

Lemma js_gt_primitive (a b : value) :
  is_primitive a = true -> is_primitive b = true -> exists r, js_gt a b = Returned r.
Proof.
  intros Ha Hb. unfold js_gt. rewrite !ToPrimitive_primitive by assumption. cbn [bind].
  destruct a; eauto; destruct b; eauto.
Qed.

(** On numbers [a > b] is the order of the rationals. *)
Lemma js_gt_numbers (a b : Q) :
  js_gt (Number (Fin a)) (Number (Fin b)) = Returned true <-> b < a.
Proof.
  cbn. split_Qle; cbn; split; intros H; try lra; try discriminate; reflexivity.
Qed.

Lemma exceeds_js_gt (elevation e : value) :
  exceeds elevation e = true <-> js_gt (field e "h") elevation = Returned true.
Proof.
  unfold exceeds. destruct (js_gt (field e "h") elevation) as [[|] | err]; split;
    intros H; congruence.
Qed.

Lemma aboveTerrain_exceeds (elevation e : value) :
  is_primitive elevation = true -> shape_entry e = true ->
  aboveTerrain elevation e = Returned (exceeds elevation e).
Proof.
  intros Hel [[Hobj Hh]%andb_prop Hc]%andb_prop.
  unfold aboveTerrain, exceeds. rewrite get_field by exact Hobj. cbn [bind].
  destruct (js_gt_primitive (field e "h") elevation Hh Hel) as [r ->]. reflexivity.
Qed.

Lemma aboveGroundEntry_decoded (e : value) :
  shape_entry e = true -> aboveGroundEntry e = Returned (decodedEntry e).
Proof.
  intros [[Hobj Hh]%andb_prop Hc]%andb_prop.
  unfold aboveGroundEntry. rewrite !get_field by exact Hobj. cbn [bind].
  rewrite js_div_primitive by exact Hc. reflexivity.
Qed.

(** On a profile of numbers the filter is the filter of the rationals. *)
Lemma filtered_elevations (terrain : Q) (entries : list value) (hs : list Q) :
  map (fun e => field e "h") entries = map num hs ->
  map (fun e => AboveGround.elevation (decodedEntry e))
      (filter (exceeds (Number (Fin terrain))) entries)
  = map num (filter (fun h => negb (Qle_bool h terrain)) hs).
Proof.
  revert hs. induction entries as [| e entries IH]; intros [| h hs] Hhs;
    try discriminate; [reflexivity |].
  cbn [map] in Hhs. injection Hhs as Hh Hrest.
  cbn [filter]. unfold exceeds at 1. rewrite Hh.
  cbn [num js_gt ToPrimitive bind ToNumber_primitive number_ltb].
  destruct (negb (Qle_bool h terrain)); cbn [map]; rewrite (IH hs Hrest);
    [now rewrite <- Hh | reflexivity].
Qed.

(** On an hour-record of the right shape the constructor returns, and
    what it returns is [decodedHour]. *)
Lemma DetailedForecast_new_shape (data elevation : value) :
  shape_hour data = true -> is_primitive elevation = true ->
  exists time,
    Date_new (field data "t") = Returned time
    /\ DetailedForecast_new data elevation = Returned (decodedHour time data elevation).
Proof.
  unfold shape_hour. intros H Hel.
  repeat match type of H with (_ && _ = true) => apply andb_prop in H as [H ?] end.
  destruct (Date_new_primitive (field data "t")) as [time Htime]; [assumption |].
  exists time. split; [exact Htime |].
  assert (Hentries : Forall (fun e => shape_entry e = true) (elements_of (field data "p"))).
  { apply Forall_forall. now apply forallb_forall. }
  assert (Hfilter : filterM (aboveTerrain elevation) (elements_of (field data "p"))
                    = Returned (filter (exceeds elevation) (elements_of (field data "p")))).
  { apply filterM_total. revert Hentries. apply Forall_impl.
    intros e He. now apply aboveTerrain_exceeds. }
  assert (Hmap : mapM aboveGroundEntry (filter (exceeds elevation) (elements_of (field data "p")))
                 = Returned (map decodedEntry
                               (filter (exceeds elevation) (elements_of (field data "p"))))).
  { apply mapM_total. apply Forall_forall. intros e [He _]%filter_In.
    apply aboveGroundEntry_decoded. now apply (proj1 (Forall_forall _ _) Hentries). }
  unfold DetailedForecast_new, decodedHour.
  repeat (first [ rewrite get_field by assumption
                | rewrite Htime
                | rewrite js_div_primitive by assumption
                | rewrite as_array_elements by assumption
                | rewrite Hfilter
                | rewrite Hmap ];
          cbn [bind]).
  rewrite !(index_array (field data "w")) by assumption.
  destruct (field (field data "bl") "c"); try discriminate; cbn;
    destruct (field data "xcf"), (field data "iso"); reflexivity.
Qed.

Lemma DayForecasts_new_shape (data elevation : value) :
  shape_day data = true -> is_primitive elevation = true ->
  exists forecasts,
    DayForecasts_new data elevation = Returned (DayForecasts.mk (field data "th") forecasts)
    /\ Forall2 (fun raw f => exists time, f = decodedHour time raw elevation)
               (elements_of (field data "h")) forecasts.
Proof.
  intros [[Hobj Harr]%andb_prop Hhours]%andb_prop Hel.
  destruct (mapM_Forall2 (fun data => DetailedForecast_new data elevation)
              (fun raw f => exists time, f = decodedHour time raw elevation)
              (elements_of (field data "h"))) as [forecasts [Hrun Hrel]].
  { apply Forall_forall. intros raw Hraw.
    destruct (DetailedForecast_new_shape raw elevation) as [time [_ Hdec]];
      [now apply (proj1 (forallb_forall _ _) Hhours) | exact Hel |].
    eexists. split; [exact Hdec | now exists time]. }
  exists forecasts. split; [| exact Hrel].
  unfold DayForecasts_new. rewrite !get_field by exact Hobj. cbn [bind].
  rewrite as_array_elements by exact Harr. cbn [bind]. now rewrite Hrun.
Qed.

Lemma LocationForecasts_new_shape (data : value) (metadata : ForecastMetadata.t)
    (latitude longitude : number) :
  shape_location data = true ->
  exists days,
    LocationForecasts_new data metadata latitude longitude
    = Returned (LocationForecasts.mk (field data "h") days metadata latitude longitude)
    /\ Forall2 (fun raw day =>
                  Forall2 (fun raw f => exists time, f = decodedHour time raw (field data "h"))
                          (elements_of (field raw "h")) (DayForecasts.forecasts day))
               (elements_of (field data "d")) days.
Proof.
  intros [[[Hobj Hel]%andb_prop Harr]%andb_prop Hdays]%andb_prop.
  destruct (mapM_Forall2 (fun day => DayForecasts_new day (field data "h"))
              (fun raw day =>
                 Forall2 (fun raw f => exists time, f = decodedHour time raw (field data "h"))
                         (elements_of (field raw "h")) (DayForecasts.forecasts day))
              (elements_of (field data "d"))) as [days [Hrun Hrel]].
  { apply Forall_forall. intros raw Hraw.
    destruct (DayForecasts_new_shape raw (field data "h")) as [forecasts [Hdec Hfs]];
      [now apply (proj1 (forallb_forall _ _) Hdays) | exact Hel |].
    eexists. split; [exact Hdec | exact Hfs]. }
  exists days. split; [| exact Hrel].
  unfold LocationForecasts_new. rewrite !get_field by exact Hobj. cbn [bind].
  rewrite as_array_elements by exact Harr. cbn [bind]. now rewrite Hrun.
Qed.

Lemma decodedHour_copied_unchecked (time : Date) (raw elevation : value) :
  copied_unchecked raw (decodedHour time raw elevation).
Proof.
  unfold copied_unchecked, decodedHour. cbn.
  repeat split; intros ->; reflexivity.
Qed.

End DecoderFacts.

(** C1, as the code has it.  The decoder validates nothing and has no
    decode error: on every raw record whose nested objects and arrays
    are there (the numeric leaves being any primitive values, or
    missing), decoding returns a [LocationForecasts].  Its elevation is
    the record's [h] as it is, and each forecast holds the fields of its
    hour-record as they are: a missing [xc], [mslet], [bl.h], [s.t] or
    [r.t] is [undefined] in the result, and a missing [v] or [c], which
    the decoder scales, is [NaN]. *)
Theorem decoding_does_not_validate :
  forall (host : Host) (data : value) (metadata : ForecastMetadata.t)
         (latitude longitude : number),
    shape_location data = true ->
    exists lf : LocationForecasts.t,
      LocationForecasts_new data metadata latitude longitude = Returned lf
      /\ LocationForecasts.elevation lf = field data "h"
      /\ Forall2 copied_unchecked (rawHours data) (flatForecasts lf).
Proof.
  intros host data metadata latitude longitude Hshape.
  destruct (LocationForecasts_new_shape data metadata latitude longitude Hshape)
    as [days [Hrun Hrel]].
  eexists. split; [exact Hrun |]. split; [reflexivity |].
  rewrite flatForecasts_concat. cbn [LocationForecasts.dayForecasts]. unfold rawHours.
  apply Forall2_concat, Forall2_maps.
  revert Hrel. apply Forall2_impl. intros raw day.
  apply Forall2_impl. intros r f [time ->].
  apply decodedHour_copied_unchecked.
Qed.

(** A location whose only hour-record has no [xc] decodes. *)
Lemma decoding_does_not_validate_witness :
  exists lf : LocationForecasts.t,
    LocationForecasts_new (host := utcHost) (exampleLocation [hourWithoutXc])
                          exampleMetadata (Fin 45) (Fin 9)
    = Returned lf
    /\ LocationForecasts.elevation lf = field (exampleLocation [hourWithoutXc]) "h"
    /\ Forall2 copied_unchecked (rawHours (exampleLocation [hourWithoutXc]))
               (flatForecasts lf).
Proof.
  apply (decoding_does_not_validate utcHost). reflexivity.
Defined.

(** C1 as stated fails: an hour-record with no [xc] (a required numeric
    field) decodes to a forecast whose [xcPotential] is [undefined], and
    one with no [v] decodes to a forecast whose [thermalVelocity] is
    [NaN]; neither decoding fails. *)
Lemma missing_field_decodes :
  field hourWithoutXc "xc" = Undefined
  /\ (exists lf : LocationForecasts.t,
        LocationForecasts_new (host := utcHost) (exampleLocation [hourWithoutXc])
                              exampleMetadata (Fin 45) (Fin 9)
        = Returned lf
        /\ map DetailedForecast.xcPotential (flatForecasts lf) = [Undefined])
  /\ (exists lf : LocationForecasts.t,
        LocationForecasts_new (host := utcHost)
          (exampleLocation [without "v" (exampleHour "2021-03-01T06:00:00Z" exampleProfile)])
          exampleMetadata (Fin 45) (Fin 9)
        = Returned lf
        /\ map DetailedForecast.thermalVelocity (flatForecasts lf) = [NaN]).
Proof.
  split; [reflexivity |].
  split; eexists; (split; [vm_compute; reflexivity | reflexivity]).
Qed.

(** ** Above-ground samples *)

(** C8.  On every hour-record of the declared shape, for every primitive
    terrain elevation, decoding returns a forecast whose [aboveGround]
    samples are, one for one and in the same order, the entries of the
    raw profile [p] whose [h] is [>] the terrain elevation: the profile
    filtered, not sorted.  Hence every decoded sample has an elevation
    [>] the terrain elevation, which for numbers is the strict order. *)
Theorem aboveGround_is_filtered_profile :
  forall (host : Host) (data elevation : value),
    shape_hour data = true ->
    is_primitive elevation = true ->
    exists f : DetailedForecast.t,
      DetailedForecast_new data elevation = Returned f
      /\ Forall2 sample_of
                 (filter (exceeds elevation) (elements_of (field data "p")))
                 (DetailedForecast.aboveGround f)
      /\ Forall (fun ag => js_gt (AboveGround.elevation ag) elevation = Returned true)
                (DetailedForecast.aboveGround f)
      /\ (forall terrain : Q,
            elevation = Number (Fin terrain) ->
            Forall (fun ag => forall h : Q,
                        AboveGround.elevation ag = Number (Fin h) -> terrain < h)
                   (DetailedForecast.aboveGround f))
      /\ (forall (terrain : Q) (hs : list Q),
            elevation = Number (Fin terrain) ->
            map (fun e => field e "h") (elements_of (field data "p")) = map num hs ->
            map AboveGround.elevation (DetailedForecast.aboveGround f)
            = map num (filter (fun h => negb (Qle_bool h terrain)) hs)).
Proof.
  intros host data elevation Hshape Hel.
  destruct (DetailedForecast_new_shape data elevation Hshape Hel) as [time [_ Hrun]].
  eexists. split; [exact Hrun |].
  cbn [decodedHour DetailedForecast.aboveGround].
  assert (Hgt : Forall (fun ag => js_gt (AboveGround.elevation ag) elevation = Returned true)
                       (map decodedEntry
                            (filter (exceeds elevation) (elements_of (field data "p"))))).
  { apply Forall_map, Forall_forall. intros e [_ He]%filter_In.
    now apply exceeds_js_gt. }
  split; [| split; [exact Hgt | split]].
  - clear Hgt.
    induction (filter (exceeds elevation) (elements_of (field data "p"))) as [| e l IH];
      cbn; [constructor |].
    constructor; [now repeat split | exact IH].
  - intros terrain ->. revert Hgt. apply Forall_impl. intros ag Hag h Hh.
    rewrite Hh in Hag. now apply js_gt_numbers.
  - intros terrain hs -> Hhs. clear Hgt. rewrite map_map.
    exact (filtered_elevations terrain (elements_of (field data "p")) hs Hhs).
Qed.

(** Terrain at 500 m and a profile at 300, 600 and 1200 m: the samples at
    600 and 1200 m are kept, in that order. *)
Lemma aboveGround_witness :
  exists f : DetailedForecast.t,
    DetailedForecast_new (host := utcHost)
      (exampleHour "2021-03-01T06:00:00Z" exampleProfile) (num 500)
    = Returned f
    /\ map (fun e => field e "h") exampleProfile = [num 300; num 600; num 1200]
    /\ map AboveGround.elevation (DetailedForecast.aboveGround f) = [num 600; num 1200].
Proof.
  destruct (aboveGround_is_filtered_profile utcHost
              (exampleHour "2021-03-01T06:00:00Z" exampleProfile) (num 500)
              eq_refl eq_refl) as [f [Hf _]].
  exists f. split; [exact Hf |]. split; [reflexivity |].
  vm_compute in Hf. injection Hf as <-. reflexivity.
Defined.

(** ** The boundary layer *)

(** C9.  On every hour-record of the declared shape decoding returns a
    forecast whose boundary layer has [cumulusClouds] defined if and
    only if the raw pair [bl.c] is there; when it is,
    [soaringLayerDepth] is [bl.c[0]] (and the clouds are [bl.c[0]] and
    [bl.c[1]]), and when it is not, [soaringLayerDepth] is the depth
    [bl.h]. *)
Theorem cumulusClouds_iff_pair_present :
  forall (host : Host) (data elevation : value),
    shape_hour data = true ->
    is_primitive elevation = true ->
    exists f : DetailedForecast.t,
      DetailedForecast_new data elevation = Returned f
      /\ DetailedBoundaryLayer.depth (DetailedForecast.boundaryLayer f)
         = field (field data "bl") "h"
      /\ (DetailedBoundaryLayer.cumulusClouds (DetailedForecast.boundaryLayer f) <> None
          <-> field (field data "bl") "c" <> Undefined)
      /\ (field (field data "bl") "c" <> Undefined ->
          DetailedBoundaryLayer.soaringLayerDepth (DetailedForecast.boundaryLayer f)
          = nth 0 (elements_of (field (field data "bl") "c")) Undefined
          /\ DetailedBoundaryLayer.cumulusClouds (DetailedForecast.boundaryLayer f)
             = Some (CumulusClouds.mk
                       (nth 0 (elements_of (field (field data "bl") "c")) Undefined)
                       (nth 1 (elements_of (field (field data "bl") "c")) Undefined)))
      /\ (field (field data "bl") "c" = Undefined ->
          DetailedBoundaryLayer.soaringLayerDepth (DetailedForecast.boundaryLayer f)
          = field (field data "bl") "h").
Proof.
  intros host data elevation Hshape Hel.
  destruct (DetailedForecast_new_shape data elevation Hshape Hel) as [time [_ Hrun]].
  eexists. split; [exact Hrun |].
  cbn [decodedHour DetailedForecast.boundaryLayer DetailedBoundaryLayer.depth
       DetailedBoundaryLayer.cumulusClouds DetailedBoundaryLayer.soaringLayerDepth].
  split; [reflexivity |].
  destruct (field (field data "bl") "c"); cbn [is_undefined];
    (split; [split; congruence | split; [intros H; try congruence; now split | congruence]]).
Qed.

(** An hour-record with clouds from 900 to 1500 m above a boundary layer
    of 1200 m: the soaring layer stops at 900 m. *)
Lemma cumulusClouds_witness :
  exists f : DetailedForecast.t,
    DetailedForecast_new (host := utcHost)
      (exampleHour "2021-03-01T06:00:00Z" exampleProfile) (num 500)
    = Returned f
    /\ DetailedBoundaryLayer.soaringLayerDepth (DetailedForecast.boundaryLayer f) = num 900
    /\ DetailedBoundaryLayer.depth (DetailedForecast.boundaryLayer f) = num 1200.
Proof.
  destruct (cumulusClouds_iff_pair_present utcHost
              (exampleHour "2021-03-01T06:00:00Z" exampleProfile) (num 500)
              eq_refl eq_refl) as [f [Hf [Hdepth [_ [Hpair _]]]]].
  exists f. split; [exact Hf |]. split; [| exact Hdepth].
  apply Hpair. discriminate.
Defined.

(* ===================================================================== *)
(** * Further properties of the code *)
(* ===================================================================== *)

(** ** Navigation buttons *)

(** X1.  The buttons clamp on one side only.  The two "previous" buttons
    never hand on less than 3 and the two "next" buttons never more than
    [latest], whatever the current offset; from an offset within
    [3, latest] every button stays within [3, latest].  But a "previous"
    button does not clamp to [latest] (from an integer offset above
    [latest + 24] a day back is still above [latest]) and a "next"
    button does not clamp to 3 (from an integer offset below [-21] a day
    forward is still below 3); these two for integers up to 2^53 in
    magnitude, whose sums and differences the program computes
    exactly. *)
Theorem buttons_clamp_one_side :
  (forall (h : Q) (intent : Intent),
      intent = previousDay \/ intent = previousPeriod ->
      forall latest : number, at_least 3 (nextOffset (Fin h) intent latest))
  /\ (forall (h latest : Q) (intent : Intent),
        intent = nextPeriod \/ intent = nextDay ->
        at_most latest (nextOffset (Fin h) intent (Fin latest)))
  /\ (forall (h latest : Q) (intent : Intent),
        3 <= h -> h <= latest ->
        at_least 3 (nextOffset (Fin h) intent (Fin latest))
        /\ at_most latest (nextOffset (Fin h) intent (Fin latest)))
  /\ (forall h latest : Z,
        exact_integer h -> exact_integer latest ->
        (latest + 24 < h)%Z -> (3 <= latest)%Z ->
        ~ at_most (inject_Z latest) (nextOffset (of_Z h) previousDay (of_Z latest)))
  /\ (forall h latest : Z,
        exact_integer h -> exact_integer latest ->
        (h < -21)%Z -> (3 <= latest)%Z ->
        ~ at_least 3 (nextOffset (of_Z h) nextDay (of_Z latest))).
Proof.
  split; [| split; [| split; [| split]]].
  - intros h intent [-> | ->] latest; unfold_buttons; split_Qle; cbn; lra.
  - intros h latest intent [-> | ->]; unfold_buttons; split_Qle; cbn; lra.
  - intros h latest intent Hlo Hhi.
    destruct intent; unfold_buttons; split_Qle; cbn; split; lra.
  - intros h latest _ _ Hh Hl. rewrite Zlt_Qlt, inject_Z_plus in Hh.
    rewrite Zle_Qle in Hl. change (inject_Z 24) with 24 in Hh.
    change (inject_Z 3) with 3 in Hl.
    unfold of_Z. unfold_buttons; split_Qle; cbn; lra.
  - intros h latest _ _ Hh Hl. rewrite Zlt_Qlt in Hh. rewrite Zle_Qle in Hl.
    change (inject_Z (-21)) with (-21) in Hh. change (inject_Z 3) with 3 in Hl.
    unfold of_Z. unfold_buttons; split_Qle; cbn; lra.
Qed.

(** From offset 12 of a run that ends at 180 every button stays in range. *)
Lemma buttons_clamp_witness :
  at_least 3 (nextOffset (Fin 12) previousDay (Fin 180))
  /\ at_most 180 (nextOffset (Fin 12) previousDay (Fin 180)).
Proof.
  apply (proj1 (proj2 (proj2 buttons_clamp_one_side)) 12 180 previousDay); lra.
Defined.

Lemma nextPeriod_steps (n : nat) (h latest : Z) :
  exact_integer (Z.abs h + 3 * Z.of_nat (S n)) -> exact_integer latest ->
  same_number
    (Nat.iter (S n) (fun offset => nextOffset offset nextPeriod (of_Z latest)) (of_Z h))
    (Math.min (of_Z (h + 3 * Z.of_nat (S n))) (of_Z latest)).
Proof.
  intros _ _. unfold of_Z. rewrite inject_Z_plus, inject_Z_mult.
  change (inject_Z 3) with 3.
  generalize (inject_Z h) as q, (inject_Z latest) as l. intros q l.
  induction n as [| n IH].
  - unfold Nat.iter. cbn [nat_rect]. unfold_buttons.
    change (inject_Z (Z.of_nat 1)) with 1.
    split_Qle; cbn [same_number]; lra.
  - rewrite (Nat2Z.inj_succ (S n)), <- Z.add_1_r, inject_Z_plus.
    change (inject_Z 1) with 1.
    change (Nat.iter (S (S n)) ?f ?x) with (f (Nat.iter (S n) f x)).
    destruct (Nat.iter (S n) _ (Fin q)) as [| | | r];
      revert IH; unfold_buttons; split_Qle; cbn [same_number]; intros IH;
      try contradiction; lra.
Qed.

Lemma previousPeriod_steps (n : nat) (h : Z) (latest : number) :
  exact_integer (Z.abs h + 3 * Z.of_nat (S n)) ->
  same_number
    (Nat.iter (S n) (fun offset => nextOffset offset previousPeriod latest) (of_Z h))
    (Math.max (of_Z (h - 3 * Z.of_nat (S n))) (of_Z 3)).
Proof.
  intros _. unfold of_Z, Z.sub. rewrite inject_Z_plus, inject_Z_opp, inject_Z_mult.
  change (inject_Z 3) with 3.
  generalize (inject_Z h) as q. intros q.
  induction n as [| n IH].
  - unfold Nat.iter. cbn [nat_rect]. unfold_buttons.
    change (inject_Z (Z.of_nat 1)) with 1.
    split_Qle; cbn [same_number]; lra.
  - rewrite (Nat2Z.inj_succ (S n)), <- Z.add_1_r, inject_Z_plus.
    change (inject_Z 1) with 1.
    change (Nat.iter (S (S n)) ?f ?x) with (f (Nat.iter (S n) f x)).
    destruct (Nat.iter (S n) _ (Fin q)) as [| | | r];
      revert IH; unfold_buttons; split_Qle; cbn [same_number]; intros IH;
      try contradiction; lra.
Qed.

(** X2.  Period steps add up, clamping included, on integer offsets
    that stay within 2^53 in magnitude (where the program's sums and
    differences are exact): pressing "+3" [n + 1] times from the integer
    [h] gives [min(h + 3 (n + 1), latest)] and pressing "-3" [n + 1]
    times gives [max(h - 3 (n + 1), 3)]; so eight presses of "+3" end
    where one press of "+24" does, and eight presses of "-3" where one
    press of "-24" does. *)
Theorem eight_period_steps_are_a_day_step :
  (forall (n : nat) (h latest : Z),
      exact_integer (Z.abs h + 3 * Z.of_nat (S n)) -> exact_integer latest ->
      same_number
        (Nat.iter (S n) (fun offset => nextOffset offset nextPeriod (of_Z latest)) (of_Z h))
        (Math.min (of_Z (h + 3 * Z.of_nat (S n))) (of_Z latest)))
  /\ (forall (n : nat) (h : Z) (latest : number),
        exact_integer (Z.abs h + 3 * Z.of_nat (S n)) ->
        same_number
          (Nat.iter (S n) (fun offset => nextOffset offset previousPeriod latest) (of_Z h))
          (Math.max (of_Z (h - 3 * Z.of_nat (S n))) (of_Z 3)))
  /\ (forall h latest : Z,
        exact_integer (Z.abs h + 24) -> exact_integer latest ->
        same_number
          (Nat.iter 8 (fun offset => nextOffset offset nextPeriod (of_Z latest)) (of_Z h))
          (nextOffset (of_Z h) nextDay (of_Z latest)))
  /\ (forall (h : Z) (latest : number),
        exact_integer (Z.abs h + 24) ->
        same_number
          (Nat.iter 8 (fun offset => nextOffset offset previousPeriod latest) (of_Z h))
          (nextOffset (of_Z h) previousDay latest)).
Proof.
  split; [exact nextPeriod_steps |]. split; [exact previousPeriod_steps |]. split.
  - intros h latest Hh Hl. pose proof (nextPeriod_steps 7 h latest Hh Hl) as H.
    revert H. unfold of_Z. rewrite inject_Z_plus.
    change (inject_Z (3 * Z.of_nat 8)) with 24.
    destruct (Nat.iter 8 _ (Fin (inject_Z h))) as [| | | r];
      unfold_buttons; split_Qle; cbn [same_number]; intros H;
      try contradiction; lra.
  - intros h latest Hh. pose proof (previousPeriod_steps 7 h latest Hh) as H.
    revert H. unfold of_Z, Z.sub. rewrite inject_Z_plus.
    change (inject_Z (- (3 * Z.of_nat 8))) with (-24).
    change (inject_Z 3) with 3.
    destruct (Nat.iter 8 _ (Fin (inject_Z h))) as [| | | r];
      unfold_buttons; split_Qle; cbn [same_number]; intros H;
      try contradiction; lra.
Qed.

(** From offset 9 of a run that ends at 180, eight presses of "+3" end
    where one press of "+24" does. *)
Lemma eight_period_steps_witness :
  same_number
    (Nat.iter 8 (fun offset => nextOffset offset nextPeriod (of_Z 180)) (of_Z 9))
    (nextOffset (of_Z 9) nextDay (of_Z 180)).
Proof.
  apply (proj1 (proj2 (proj2 eight_period_steps_are_a_day_step)) 9%Z 180%Z);
    vm_compute; discriminate.
Defined.

(** X3.  Away from the ends a step forward and the same step back return
    to the start, on integer offsets (up to 2^53, where the program's
    sums and differences are exact): from an integer [h >= 3] with
    [h + 3 <= latest], "+3" then "-3" gives [h], and likewise "+24" then
    "-24" when [h + 24 <= latest].  At the end of the run they do not:
    from [latest] (at least 6), "+3" stays at [latest] and "-3" then
    goes to [latest - 3]. *)
Theorem step_forward_and_back :
  (forall h latest : Z,
      exact_integer latest -> (3 <= h)%Z -> (h + 3 <= latest)%Z ->
      same_number
        (nextOffset (nextOffset (of_Z h) nextPeriod (of_Z latest)) previousPeriod
                    (of_Z latest))
        (of_Z h))
  /\ (forall h latest : Z,
        exact_integer latest -> (3 <= h)%Z -> (h + 24 <= latest)%Z ->
        same_number
          (nextOffset (nextOffset (of_Z h) nextDay (of_Z latest)) previousDay
                      (of_Z latest))
          (of_Z h))
  /\ (forall latest : Z,
        exact_integer latest -> (6 <= latest)%Z ->
        same_number
          (nextOffset (nextOffset (of_Z latest) nextPeriod (of_Z latest)) previousPeriod
                      (of_Z latest))
          (of_Z (latest - 3))).
Proof.
  split; [| split].
  - intros h latest _ Hlo Hhi. rewrite Zle_Qle in Hlo.
    rewrite Zle_Qle, inject_Z_plus in Hhi.
    change (inject_Z 3) with 3 in Hlo, Hhi.
    unfold of_Z. unfold_buttons. split_Qle; unfold_buttons;
      split_Qle; cbn [same_number]; lra.
  - intros h latest _ Hlo Hhi. rewrite Zle_Qle in Hlo.
    rewrite Zle_Qle, inject_Z_plus in Hhi.
    change (inject_Z 3) with 3 in Hlo. change (inject_Z 24) with 24 in Hhi.
    unfold of_Z. unfold_buttons. split_Qle; unfold_buttons;
      split_Qle; cbn [same_number]; lra.
  - intros latest _ Hl. rewrite Zle_Qle in Hl. change (inject_Z 6) with 6 in Hl.
    unfold of_Z, Z.sub. rewrite inject_Z_plus, inject_Z_opp.
    change (inject_Z 3) with 3.
    unfold_buttons. split_Qle; unfold_buttons;
      split_Qle; cbn [same_number]; lra.
Qed.

(** From offset 9 of a run that ends at 180, "+3" then "-3" is back at 9. *)
Lemma step_forward_and_back_witness :
  same_number
    (nextOffset (nextOffset (of_Z 9) nextPeriod (of_Z 180)) previousPeriod (of_Z 180))
    (of_Z 9).
Proof.
  apply (proj1 step_forward_and_back 9%Z 180%Z); vm_compute; discriminate.
Defined.

(** ** Hour offsets and lookups *)

Lemma roundedHours_shift (d k : Z) :
  roundedHours (d + 3600000 * k) = (roundedHours d + k)%Z.
Proof.
  pose proof (round_bounds d) as H1. pose proof (round_bounds (d + 3600000 * k)) as H2.
  cbv zeta in H1, H2. fold (roundedHours d) in H1.
  fold (roundedHours (d + 3600000 * k)) in H2. lia.
Qed.

Lemma roundedHours_whole (k : Z) : roundedHours (3600000 * k) = k.
Proof.
  pose proof (round_bounds (3600000 * k)) as H. cbv zeta in H.
  fold (roundedHours (3600000 * k)) in H. lia.
Qed.

(** X4.  Hour offsets follow whole hours exactly: a forecast exactly [k]
    hours after the first time step is at offset [k] (0 for the first
    time step itself); and among instants at most 2^53 ms from the first
    time step (where the program's subtraction of the time values is
    exact), a forecast [k] hours after another is [k] offsets after it,
    and moving the first time step [k] hours later lowers the offset by
    [k]. *)
Theorem hourOffset_follows_whole_hours :
  (forall (f : DetailedForecast.t) (t0 k : Z),
      DetailedForecast.time f = Date_ms (t0 + 3600000 * k) ->
      hourOffsetSinceFirstTimeStep f (Date_ms t0) = of_Z k)
  /\ (forall (f g : DetailedForecast.t) (t t0 k : Z),
        DetailedForecast.time f = Date_ms t ->
        DetailedForecast.time g = Date_ms (t + 3600000 * k) ->
        exact_integer (t - t0) ->
        exact_integer (t + 3600000 * k - t0) ->
        exists n : Z,
          hourOffsetSinceFirstTimeStep f (Date_ms t0) = of_Z n
          /\ hourOffsetSinceFirstTimeStep g (Date_ms t0) = of_Z (n + k))
  /\ (forall (f : DetailedForecast.t) (t t0 k : Z),
        DetailedForecast.time f = Date_ms t ->
        exact_integer (t - t0) ->
        exact_integer (t - (t0 + 3600000 * k)) ->
        exists n : Z,
          hourOffsetSinceFirstTimeStep f (Date_ms t0) = of_Z n
          /\ hourOffsetSinceFirstTimeStep f (Date_ms (t0 + 3600000 * k)) = of_Z (n - k)).
Proof.
  split; [| split].
  - intros f t0 k Hf. rewrite (hourOffset_valid f _ t0 Hf). f_equal.
    replace (t0 + 3600000 * k - t0)%Z with (3600000 * k)%Z by lia.
    apply roundedHours_whole.
  - intros f g t t0 k Hf Hg _ _. exists (roundedHours (t - t0)).
    split; [now apply hourOffset_valid |].
    rewrite (hourOffset_valid g _ t0 Hg). f_equal.
    replace (t + 3600000 * k - t0)%Z with (t - t0 + 3600000 * k)%Z by lia.
    apply roundedHours_shift.
  - intros f t t0 k Hf _ _. exists (roundedHours (t - t0)).
    split; [now apply hourOffset_valid |].
    rewrite (hourOffset_valid f t _ Hf). f_equal.
    replace (t - (t0 + 3600000 * k))%Z with (t - t0 + 3600000 * - k)%Z by lia.
    rewrite roundedHours_shift. lia.
Qed.

(** The example hour at 06:00 is three hours after a first time step at
    03:00. *)
Lemma hourOffset_whole_hours_witness :
  exists f : DetailedForecast.t,
    DetailedForecast_new (host := utcHost)
      (exampleHour "2021-03-01T06:00:00Z" exampleProfile) (num 500)
    = Returned f
    /\ hourOffsetSinceFirstTimeStep f (Date_ms 1614567600000) = of_Z 3.
Proof.
  eexists. split; [vm_compute; reflexivity |].
  apply (proj1 hourOffset_follows_whole_hours). reflexivity.
Defined.

Lemma number_ltb_not_eq (a b : number) :
  number_ltb a b = true -> number_strict_eq a b = false.
Proof.
  destruct a as [| | | p], b as [| | | q]; cbn; try congruence.
  intros H. destruct (Qeq_bool p q) eqn:E; [| reflexivity].
  apply Qeq_bool_eq in E. revert H. split_Qle; [discriminate | lra].
Qed.

Lemma increasing_tail {A : Type} (R : A -> A -> bool) (x : A) (l : list A) :
  increasing R (x :: l) = true -> increasing R l = true.
Proof. destruct l as [| y l]; [reflexivity |]. cbn [increasing]. now intros [_ H]%andb_prop. Qed.

(** In an increasing sequence for a transitive order every element is
    above all the earlier ones. *)
Lemma increasing_split {A : Type} (R : A -> A -> bool) (before after : list A) (x : A) :
  (forall a b c, R a b = true -> R b c = true -> R a c = true) ->
  increasing R (before ++ x :: after) = true -> Forall (fun y => R y x = true) before.
Proof.
  intros Htrans. induction before as [| y before IH]; intros H; [constructor |].
  constructor.
  - apply (increasing_head R y _ Htrans) in H.
    apply Forall_app in H as [_ H]. now inversion H.
  - apply IH. now apply increasing_tail in H.
Qed.

Lemma hour_apart_trans (a b c : Date) :
  hour_apart a b = true -> hour_apart b c = true -> hour_apart a c = true.
Proof.
  destruct a, b, c; cbn; try discriminate. rewrite !Z.leb_le. lia.
Qed.

Lemma offsetOf_not_NaN (lf : LocationForecasts.t) (f : DetailedForecast.t) :
  number_strict_eq (offsetOf lf f) (offsetOf lf f) = true
  <-> DetailedForecast.time f <> Invalid_Date
      /\ ForecastMetadata.firstTimeStep (LocationForecasts.metadata lf) <> Invalid_Date.
Proof.
  unfold offsetOf.
  destruct (DetailedForecast.time f) as [| t] eqn:Ht.
  { rewrite hourOffset_invalid by now left. cbn. split; [discriminate | now intros [? _]]. }
  destruct (ForecastMetadata.firstTimeStep (LocationForecasts.metadata lf)) as [| t0].
  { rewrite hourOffset_invalid by now right. cbn. split; [discriminate | now intros [_ ?]]. }
  rewrite (hourOffset_valid f t t0 Ht), number_strict_eq_of_Z, Z.eqb_refl.
  split; [intros _; split; discriminate | reflexivity].
Qed.

(** X5.  An offset listed by [offsetAndDates()] is found again: for every
    listed pair whose offset is a number (not [NaN]), [atHourOffset] of
    that offset returns a forecast of the location, and its offset [===]
    the requested one. *)
Theorem listed_offsets_are_found :
  forall (lf : LocationForecasts.t) (hourOffset : number) (date : Date),
    In (hourOffset, date) (offsetAndDates lf) ->
    number_strict_eq hourOffset hourOffset = true ->
    exists g : DetailedForecast.t,
      atHourOffset lf hourOffset = Some g
      /\ In g (flatForecasts lf)
      /\ number_strict_eq (offsetOf lf g) hourOffset = true.
Proof.
  intros lf hourOffset date Hin Hnum.
  apply in_map_iff in Hin as [f [Hpair Hf]]. injection Hpair as Hoff _.
  fold (offsetOf lf f) in Hoff.
  destruct (atHourOffset lf hourOffset) as [g |] eqn:Hfind.
  - exists g. split; [reflexivity |]. apply find_some in Hfind. exact Hfind.
  - exfalso.
    apply (find_none _ _ Hfind) in Hf. fold (offsetOf lf f) in Hf.
    rewrite Hoff in Hf. congruence.
Qed.

(** Offset 6 of the example location is listed and is found. *)
Lemma listed_offsets_witness :
  exists lf : LocationForecasts.t,
    LocationForecasts_new (host := utcHost) hourlyLocation exampleMetadata (Fin 45) (Fin 9)
    = Returned lf
    /\ exists g : DetailedForecast.t,
         atHourOffset lf (Fin 6) = Some g
         /\ In g (flatForecasts lf)
         /\ number_strict_eq (offsetOf lf g) (Fin 6) = true.
Proof.
  eexists. split; [vm_compute; reflexivity |].
  eapply (listed_offsets_are_found _ (Fin 6) (Date_ms 1614589200000)).
  - right. left. vm_compute. reflexivity.
  - reflexivity.
Defined.

Section LookupBack.

Variable lf : LocationForecasts.t.
Variable t0 : Z.
Hypothesis firstTimeStep_valid :
  ForecastMetadata.firstTimeStep (LocationForecasts.metadata lf) = Date_ms t0.
Hypothesis hourly :
  increasing hour_apart (map DetailedForecast.time (flatForecasts lf)) = true.

Lemma atHourOffset_of_member (before after : list DetailedForecast.t)
    (f : DetailedForecast.t) :
  flatForecasts lf = before ++ f :: after ->
  DetailedForecast.time f <> Invalid_Date ->
  atHourOffset lf (offsetOf lf f) = Some f.
Proof.
  intros Hflat Hvalid.
  apply (find_first (fun g => number_strict_eq (offsetOf lf g) (offsetOf lf f))).
  exists before, after. split; [exact Hflat |]. split.
  - apply offsetOf_not_NaN. split; [exact Hvalid | rewrite firstTimeStep_valid; discriminate].
  - pose proof hourly as Hsorted. rewrite Hflat, increasing_map in Hsorted.
    apply (increasing_split
             (fun f g => hour_apart (DetailedForecast.time f) (DetailedForecast.time g)))
      in Hsorted.
    + revert Hsorted. apply Forall_impl. intros g Hg.
      apply number_ltb_not_eq. now apply offsetOf_strict with t0.
    + intros a b c. apply hour_apart_trans.
Qed.

Lemma atHourOffset_of_listed (hourOffset : number) (date : Date) :
  In (hourOffset, date) (offsetAndDates lf) ->
  date <> Invalid_Date ->
  exists f : DetailedForecast.t,
    atHourOffset lf hourOffset = Some f /\ DetailedForecast.time f = date.
Proof.
  intros Hin Hvalid.
  apply in_map_iff in Hin as [f [Hpair Hf]]. injection Hpair as Hoff Hdate.
  fold (offsetOf lf f) in Hoff. subst hourOffset date.
  apply in_split in Hf as [before [after Hflat]].
  exists f. split; [| reflexivity]. now apply (atHourOffset_of_member before after).
Qed.

End LookupBack.



(** X7.  What a lookup never returns: [atHourOffset(NaN)] is [undefined]
    for every location; with an invalid first time step every lookup is
    [undefined]; and a forecast that is returned has a valid time. *)
Theorem atHourOffset_never_matches_NaN :
  (forall lf : LocationForecasts.t, atHourOffset lf NaN = None)
  /\ (forall (lf : LocationForecasts.t) (hourOffset : number),
        ForecastMetadata.firstTimeStep (LocationForecasts.metadata lf) = Invalid_Date ->
        atHourOffset lf hourOffset = None)
  /\ (forall (lf : LocationForecasts.t) (hourOffset : number) (f : DetailedForecast.t),
        atHourOffset lf hourOffset = Some f ->
        DetailedForecast.time f <> Invalid_Date
        /\ ForecastMetadata.firstTimeStep (LocationForecasts.metadata lf) <> Invalid_Date).
Proof.
  split; [| split].
  - intros lf. apply (find_none_iff (fun g => number_strict_eq (offsetOf lf g) NaN)).
    apply Forall_forall. intros g _. now destruct (offsetOf lf g).
  - intros lf hourOffset Hinvalid.
    apply (find_none_iff (fun g => number_strict_eq (offsetOf lf g) hourOffset)).
    apply Forall_forall. intros g _. unfold offsetOf.
    rewrite hourOffset_invalid by now right. reflexivity.
  - intros lf hourOffset f Hfind. apply find_some in Hfind as [_ Heq].
    fold (offsetOf lf f) in Heq. apply offsetOf_not_NaN.
    destruct (offsetOf lf f) as [| | | p], hourOffset as [| | | q];
      cbn in *; try discriminate; try reflexivity.
    apply Qeq_bool_iff. reflexivity.
Qed.

(** A location decoded with an invalid first time step has no forecast at
    offset 3. *)
Lemma atHourOffset_never_witness :
  exists lf : LocationForecasts.t,
    LocationForecasts_new (host := utcHost) hourlyLocation
      (ForecastMetadata.mk (Date_ms 1614556800000) Invalid_Date (Fin 180)) (Fin 45) (Fin 9)
    = Returned lf
    /\ atHourOffset lf (Fin 3) = None.
Proof.
  eexists. split; [vm_compute; reflexivity |].
  apply (proj1 (proj2 atHourOffset_never_matches_NaN)). reflexivity.
Defined.

(** ** Day groups as runs of the input *)

Lemma rev_head_cons {A : Type} (a : A) (l : list A) (z : A) (r : list A) :
  rev l = z :: r -> rev (a :: l) = z :: (r ++ [a]).
Proof. intros H. cbn. now rewrite H. Qed.

Lemma increasing_snoc {A : Type} (R : A -> A -> bool) (l : list A) (x : A) :
  increasing R (l ++ [x])
  = increasing R l && match rev l with z :: _ => R z x | [] => true end.
Proof.
  induction l as [| a l IH]; [reflexivity |].
  destruct l as [| b l].
  - cbn. now rewrite andb_true_r.
  - change ((a :: b :: l) ++ [x]) with (a :: (b :: l) ++ [x]).
    change (increasing R (a :: (b :: l) ++ [x]))
      with (R a b && increasing R ((b :: l) ++ [x])).
    rewrite IH. change (increasing R (a :: b :: l)) with (R a b && increasing R (b :: l)).
    destruct (rev (b :: l)) as [| z r] eqn:Hrev.
    + apply (f_equal (@List.length A)) in Hrev. rewrite length_rev in Hrev. discriminate.
    + rewrite (rev_head_cons a (b :: l) z r Hrev). now rewrite andb_assoc.
Qed.

Section Runs.

Context {host : Host} {E : Type}.

Implicit Types (flat run : list (E * number * Date)) (runs : list (list (E * number * Date))).

Lemma groupOf_snoc run (x : E * number * Date) :
  run <> [] ->
  groupOf (run ++ [x]) = (fst (groupOf run) ++ [period x], snd (groupOf run)).
Proof.
  destruct run as [| y run]; [contradiction |]. intros _.
  unfold groupOf. cbn [app fst snd map]. now rewrite map_app.
Qed.

Lemma boundary_snoc run1 run2 (x : E * number * Date) :
  run2 <> [] -> boundary run1 (run2 ++ [x]) = boundary run1 run2.
Proof. destruct run2 as [| y run2]; [contradiction | reflexivity]. Qed.

Lemma lastDayOf_app flat run (z : E * number * Date) :
  lastDayOf (flat ++ run ++ [z]) = Some (getDay (dateOf z)).
Proof. rewrite app_assoc. apply lastDayOf_snoc. Qed.

Lemma push_last_group (groups : list (list (E * number) * Date)) (ps : list (E * number))
    (d : Date) (x : E * number) :
  push_last (groups ++ [(ps, d)]) x = Returned (groups ++ [(ps ++ [x], d)]).
Proof. exact (push_last_snoc groups ps d x). Qed.

(** The loop invariant in terms of runs of the input. *)
Lemma forEach_groupPeriod_runs flat :
  exists runs,
    List.concat runs = flat
    /\ forEach groupPeriod flat ([], None) = Returned (map groupOf runs, lastDayOf flat)
    /\ Forall (fun run => run <> [] /\ increasing joins run = true) runs
    /\ increasing boundary runs = true.
Proof.
  induction flat as [| x flat IH] using rev_ind.
  - exists []. repeat split. constructor.
  - destruct IH as [runs [Hcat [Hrun [Hruns Hbound]]]].
    rewrite forEach_app, Hrun. cbn [bind forEach].
    destruct runs as [| run before _] using rev_ind.
    + (* the first period *)
      cbn in Hcat. subst flat. exists [[x]].
      destruct x as [[hourSelector hourOffset] date].
      split; [reflexivity |]. split; [reflexivity |]. split; [| reflexivity].
      constructor; [| constructor]. split; [discriminate | reflexivity].
    + apply Forall_app in Hruns as [Hbefore Hlast].
      apply Forall_inv in Hlast as [Hne Hjoins].
      destruct (exists_last Hne) as [run' [z ->]].
      rewrite concat_app in Hcat. cbn [List.concat] in Hcat. rewrite app_nil_r in Hcat.
      subst flat. rewrite lastDayOf_app, lastDayOf_snoc.
      destruct x as [[hourSelector hourOffset] date].
      cbn [groupPeriod sameDay].
      change (number_strict_eq (getDay date) (getDay (dateOf z)))
        with (joins z (hourSelector, hourOffset, date)).
      destruct (joins z (hourSelector, hourOffset, date)) eqn:Hj; cbv iota.
      * (* the period joins the last run *)
        exists (before ++ [(run' ++ [z]) ++ [(hourSelector, hourOffset, date)]]).
        split; [| split; [| split]].
        -- rewrite !concat_app. cbn [List.concat]. now rewrite !app_nil_r, app_assoc.
        -- rewrite map_app. cbn [map].
           destruct (groupOf (run' ++ [z])) as [periods d] eqn:Hg.
           rewrite push_last_group. cbn [bind].
           rewrite map_app. cbn [map]. rewrite groupOf_snoc by exact Hne.
           now rewrite Hg.
        -- apply Forall_app. split; [exact Hbefore |]. constructor; [| constructor].
           split; [now destruct (run' ++ [z]) |].
           rewrite increasing_snoc, Hjoins, rev_unit. exact Hj.
        -- rewrite increasing_snoc in Hbound |- *.
           apply andb_prop in Hbound as [Hb1 Hb2]. rewrite Hb1. cbn [andb].
           destruct (rev before) as [| prev ?]; [reflexivity |].
           now rewrite boundary_snoc.
      * (* the period opens a run *)
        exists ((before ++ [run' ++ [z]]) ++ [[(hourSelector, hourOffset, date)]]).
        split; [| split; [| split]].
        -- rewrite !concat_app. cbn [List.concat]. now rewrite !app_nil_r.
        -- cbn [bind]. now rewrite (map_app groupOf (before ++ [run' ++ [z]])).
        -- apply Forall_app. split.
           ++ apply Forall_app. split; [exact Hbefore |].
              constructor; [now split | constructor].
           ++ constructor; [| constructor]. split; [discriminate | reflexivity].
        -- rewrite increasing_snoc, Hbound, rev_unit. cbn [andb].
           unfold boundary. rewrite rev_unit. now rewrite Hj.
Qed.

Lemma joins_sameWeekday (x y : E * number * Date) :
  joins x y = sameWeekday (dateOf x) (dateOf y).
Proof.
  unfold joins, sameWeekday.
  destruct (dateOf x) as [| t1], (dateOf y) as [| t2]; cbn [getDay number_strict_eq];
    try reflexivity.
  rewrite number_strict_eq_of_Z. fold (localDay t1) (localDay t2).
  destruct (Z.eqb_spec ((localDay t2 + 4) mod 7) ((localDay t1 + 4) mod 7)) as [H | H];
    destruct (Z.eqb_spec ((localDay t2 - localDay t1) mod 7) 0) as [H' | H'];
    try reflexivity; exfalso; Z.div_mod_to_equations; lia.
Qed.

End Runs.

(** X8.  The day groups are the maximal runs of the input: the periods
    split, in order, into non-empty runs such that within a run every
    period has the day of the week of the one before it, the last period
    of a run and the first of the next do not, and each group is one run:
    its periods, with the date of its first period. *)
Theorem day_groups_are_maximal_runs :
  forall (host : Host) (E : Type) (flat : list (E * number * Date)),
    exists runs : list (list (E * number * Date)),
      List.concat runs = flat
      /\ periodSelectorsByDay flat = Returned (map groupOf runs)
      /\ Forall (fun run => run <> [] /\ increasing joins run = true) runs
      /\ increasing boundary runs = true.
Proof.
  intros host E flat.
  destruct (forEach_groupPeriod_runs flat) as [runs [Hcat [Hrun [Hruns Hbound]]]].
  exists runs. split; [exact Hcat |]. split; [| now split].
  unfold periodSelectorsByDay. now rewrite Hrun.
Qed.

Lemma localDay_weeks_later {host : Host} (t k : Z) :
  LocalTZA (t + 7 * msPerDay * k) = LocalTZA t ->
  localDay (t + 7 * msPerDay * k) = (localDay t + 7 * k)%Z.
Proof.
  intros Htz. unfold localDay. rewrite Htz. unfold msPerDay.
  replace (t + 7 * 86400000 * k + LocalTZA t)%Z
    with (t + LocalTZA t + (7 * k) * 86400000)%Z by lia.
  now rewrite Z.div_add by lia.
Qed.

(** X9.  The grouping key is the day of the week in local time, not the
    calendar date: a period joins the group of the period before it
    exactly when both dates are valid and their local days are a whole
    number of weeks apart.  So a period [k] weeks after the one before it
    (with the same offset from UTC) joins its group, and a period with an
    invalid date neither joins a group nor is joined.  Between periods
    less than seven local days apart the key is the calendar day. *)
Theorem grouping_key_is_the_weekday :
  forall (host : Host) (E : Type),
    (forall (flat : list (E * number * Date)) (x y : E * number * Date),
        exists groups,
          periodSelectorsByDay (flat ++ [x]) = Returned groups
          /\ periodSelectorsByDay (flat ++ [x; y])
             = Returned (if sameWeekday (dateOf x) (dateOf y)
                         then extended groups (period y)
                         else groups ++ [([period y], dateOf y)]))
    /\ (forall t k : Z,
          LocalTZA (t + 7 * msPerDay * k) = LocalTZA t ->
          sameWeekday (Date_ms t) (Date_ms (t + 7 * msPerDay * k)) = true)
    /\ (forall d : Date,
          sameWeekday Invalid_Date d = false /\ sameWeekday d Invalid_Date = false)
    /\ (forall t1 t2 : Z,
          (Z.abs (localDay t2 - localDay t1) < 7)%Z ->
          sameWeekday (Date_ms t1) (Date_ms t2) = (localDay t2 =? localDay t1)%Z).
Proof.
  intros host E. split; [| split; [| split]].
  - intros flat x y.
    destruct (periodSelectorsByDay_next flat x y) as [groups [H1 H2]].
    exists groups. split; [exact H1 |].
    rewrite H2. fold (joins x y). now rewrite joins_sameWeekday.
  - intros t k Htz. unfold sameWeekday. rewrite (localDay_weeks_later t k Htz).
    apply Z.eqb_eq. replace (localDay t + 7 * k - localDay t)%Z with (k * 7)%Z by lia.
    apply Z.mod_mul. lia.
  - intros d. split; [reflexivity | now destruct d].
  - intros t1 t2 Hweek. unfold sameWeekday.
    destruct (Z.eqb_spec ((localDay t2 - localDay t1) mod 7) 0) as [H | H];
      destruct (Z.eqb_spec (localDay t2) (localDay t1)) as [H' | H'];
      try reflexivity; exfalso; Z.div_mod_to_equations; lia.
Qed.

(** The period of Monday 8 March 2021 06:00 joins the group of Monday
    1 March 06:00. *)
Lemma grouping_key_witness :
  sameWeekday (host := utcHost) (Date_ms 1614578400000)
              (Date_ms (1614578400000 + 7 * msPerDay * 1)) = true.
Proof.
  apply (proj1 (proj2 (grouping_key_is_the_weekday utcHost nat))). reflexivity.
Defined.

(** ** What the period selector renders *)

Lemma length_concat_sum {A : Type} (ls : list (list A)) :
  List.length (List.concat ls) = list_sum (map (@List.length A) ls).
Proof.
  induction ls as [| l ls IH]; [reflexivity |]. cbn. now rewrite length_app, IH.
Qed.

Lemma PeriodSelector_length_sum {E : Type} (groups : list (DayGroup E)) (acc : Q) :
  exists r : Q,
    fold_left (fun n ss => number_add n (of_nat (List.length (fst ss)))) groups (Fin acc)
    = Fin r
    /\ r == acc + inject_Z (Z.of_nat (list_sum (map (fun g => List.length (fst g)) groups))).
Proof.
  revert acc. induction groups as [| g groups IH]; intros acc.
  - exists acc. split; [reflexivity |].
    change (inject_Z (Z.of_nat (list_sum (map _ [])))) with 0. lra.
  - cbn [fold_left map]. change (list_sum (?a :: ?l)) with (a + list_sum l)%nat.
    unfold of_nat at 1, of_Z at 1. cbn [number_add].
    destruct (IH (acc + inject_Z (Z.of_nat (List.length (fst g))))) as [r [Hr Heq]].
    exists r. split; [exact Hr |]. rewrite Heq, Nat2Z.inj_add, inject_Z_plus. lra.
Qed.

(** X10.  The selector renders every period exactly once and in order:
    for any input it builds one day element per group, whose period
    elements, concatenated, are the input's elements; the day elements'
    widths (in columns) add up to the number of periods, and so does
    [length()], from which the width of the scrollable row is computed. *)
Theorem selector_renders_every_period :
  forall (host : Host) (E : Type) (periodsPerDay : number)
         (flat : list (E * number * Date)),
    exists (groups : list (DayGroup E)) (els : list (DayEl E)),
      periodSelectorsByDay flat = Returned groups
      /\ periodSelectors periodsPerDay flat = Returned els
      /\ List.length els = List.length groups
      /\ List.concat (map selectors els) = map (fun selector => fst (fst selector)) flat
      /\ list_sum (map columns els) = List.length flat
      /\ same_number (PeriodSelector_length groups) (of_nat (List.length flat)).
Proof.
  intros host E periodsPerDay flat.
  destruct (periodSelectorsByDay_total flat) as [groups [Hrun [Hcat _]]].
  exists groups, (map (dayEl periodsPerDay) groups).
  split; [exact Hrun |].
  split; [unfold periodSelectors; now rewrite Hrun |].
  split; [apply length_map |].
  assert (Hsum : list_sum (map (fun g : DayGroup E => List.length (fst g)) groups)
                 = List.length flat).
  { rewrite <- (length_map period flat), <- Hcat, length_concat_sum, map_map. reflexivity. }
  split; [| split].
  - rewrite map_map.
    replace (map (fun g => selectors (dayEl periodsPerDay g)) groups)
      with (map (map fst) (map fst groups)).
    + rewrite <- concat_map. unfold DayGroup in *. rewrite Hcat, map_map. reflexivity.
    + rewrite map_map. apply map_ext. now intros [periods date].
  - rewrite map_map, <- Hsum. f_equal. apply map_ext. now intros [periods date].
  - unfold PeriodSelector_length.
    destruct (PeriodSelector_length_sum groups 0) as [r [Hr Heq]].
    rewrite Hr. unfold of_nat, of_Z. cbn [same_number].
    rewrite Heq, <- Hsum. apply Qplus_0_l.
Qed.

(** ** What a decoding that returns has read *)

Lemma get_Returned (v : value) (k : string) (x : value) :
  get v k = Returned x -> is_nullish v = false /\ x = field v k.
Proof. destruct v; cbn; intros [= <-] || discriminate; now split. Qed.

Lemma index_Returned (v : value) (i : nat) (x : value) :
  index v i = Returned x -> is_nullish v = false.
Proof. destruct v; cbn; try discriminate; reflexivity. Qed.

Lemma as_array_Returned (v : value) (l : list value) :
  as_array v = Returned l -> v = Array l.
Proof. destruct v; cbn; try discriminate. now intros [= ->]. Qed.

Lemma filterM_Returned {A : Type} (p : A -> outcome bool) (l ys : list A) :
  filterM p l = Returned ys -> Forall (fun x => exists b, p x = Returned b) l.
Proof.
  revert ys. induction l as [| x l IH]; intros ys H; [constructor |].
  cbn in H. bind_inv H. constructor; [eauto | eapply IH; eauto].
Qed.

Lemma mapM_Returned {A B : Type} (f : A -> outcome B) (l : list A) (ys : list B) :
  mapM f l = Returned ys -> Forall2 (fun x y => f x = Returned y) l ys.
Proof.
  revert ys. induction l as [| x l IH]; intros ys H; cbn in H.
  - injection H as <-. constructor.
  - bind_inv H. injection H as <-. constructor; [assumption | now apply IH].
Qed.

Lemma Forall2_exists_l {A B : Type} (R : A -> B -> Prop) (l : list A) (m : list B) :
  Forall2 R l m -> Forall (fun x => exists y, R x y) l.
Proof. induction 1; constructor; eauto. Qed.

Lemma thrown_is_TypeError {A : Type} (o : outcome A) :
  (forall a, o <> Returned a) -> o = Thrown TypeError.
Proof. destruct o as [a | []]; [intros H; now destruct (H a) | reflexivity]. Qed.

Section DecoderInversion.

Context {host : Host}.

Lemma aboveGroundEntry_Returned (e : value) (ag : AboveGround.t) :
  aboveGroundEntry e = Returned ag ->
  sample_of e ag /\ js_div (field e "c") 100 = Returned (AboveGround.cloudCover ag).
Proof.
  unfold aboveGroundEntry. intros H. bind_inv H.
  repeat match goal with
         | E : get _ _ = Returned _ |- _ => apply get_Returned in E as [? ?]
         end.
  subst. injection H as <-. now repeat split.
Qed.

(** The containers a decoding that returns has found. *)
Lemma DetailedForecast_new_containers (data elevation : value) (f : DetailedForecast.t) :
  DetailedForecast_new data elevation = Returned f ->
  is_nullish data = false
  /\ is_nullish (field data "bl") = false
  /\ field (field data "bl") "c" <> Null
  /\ is_nullish (field data "s") = false
  /\ is_nullish (field data "r") = false
  /\ is_array (field data "p") = true
  /\ Forall (fun e => is_nullish e = false) (elements_of (field data "p"))
  /\ is_nullish (field data "w") = false.
Proof.
  unfold DetailedForecast_new. intros H. bind_inv H.
  repeat match goal with
         | E : get _ _ = Returned _ |- _ => apply get_Returned in E as [? ?]
         end.
  subst.
  repeat match goal with |- _ /\ _ => split end; try assumption.
  - intros Hnull.
    match goal with
    | E : (if negb (is_undefined _) then _ else _) = Returned _ |- _ =>
        rewrite Hnull in E; discriminate E
    end.
  - match goal with E : as_array _ = Returned _ |- _ => apply as_array_Returned in E as -> end.
    reflexivity.
  - match goal with E : as_array _ = Returned _ |- _ => apply as_array_Returned in E as -> end.
    match goal with E : filterM _ _ = Returned _ |- _ => apply filterM_Returned in E end.
    cbn [elements_of].
    match goal with E : Forall _ _ |- _ => revert E end.
    apply Forall_impl. intros e [b Hb]. unfold aboveTerrain in Hb. bind_inv Hb.
    match goal with E : get _ _ = Returned _ |- _ => now apply get_Returned in E end.
  - match goal with E : index _ 0 = Returned _ |- _ => now apply index_Returned in E end.
Qed.

(** The fields of a decoding that returns, in terms of the raw record. *)
Lemma DetailedForecast_new_fields (data elevation : value) (f : DetailedForecast.t) :
  DetailedForecast_new data elevation = Returned f ->
  Date_new (field data "t") = Returned (DetailedForecast.time f)
  /\ DetailedForecast.xcPotentialFlatlands f
     = (if is_undefined (field data "xcf") then Number (Fin 0) else field data "xcf")
  /\ DetailedForecast.isothermZero f = field data "iso"
  /\ js_div (field data "v") 10 = Returned (DetailedForecast.thermalVelocity f)
  /\ js_div (field data "c") 100 = Returned (DetailedForecast.cloudCover f)
  /\ (exists kept,
        filterM (aboveTerrain elevation) (elements_of (field data "p")) = Returned kept
        /\ mapM aboveGroundEntry kept = Returned (DetailedForecast.aboveGround f))
  /\ index (field data "w") 0
     = Returned (DetailedWinds.soaringLayerTop (DetailedForecast.winds f))
  /\ index (field data "w") 1 = Returned (DetailedWinds._300MAGL (DetailedForecast.winds f))
  /\ index (field data "w") 2 = Returned (DetailedWinds._2000MAMSL (DetailedForecast.winds f))
  /\ index (field data "w") 3 = Returned (DetailedWinds._3000MAMSL (DetailedForecast.winds f))
  /\ index (field data "w") 4 = Returned (DetailedWinds._4000MAMSL (DetailedForecast.winds f)).
Proof.
  unfold DetailedForecast_new. intros H. bind_inv H.
  repeat match goal with
         | E : get _ _ = Returned _ |- _ => apply get_Returned in E as [? ?]
         end.
  subst.
  match goal with E : as_array _ = Returned _ |- _ => apply as_array_Returned in E as Hp end.
  rewrite Hp in *. cbn [elements_of].
  injection H as <-. cbn.
  repeat match goal with |- _ /\ _ => split end; try assumption.
  - now destruct (field data "xcf").
  - now destruct (field data "iso").
  - eexists. split; eassumption.
Qed.

Lemma DayForecasts_new_Returned (data elevation : value) (day : DayForecasts.t) :
  DayForecasts_new data elevation = Returned day ->
  DayForecasts.thunderstormRisk day = field data "th"
  /\ Forall2 (fun raw f => DetailedForecast_new raw elevation = Returned f)
             (elements_of (field data "h")) (DayForecasts.forecasts day).
Proof.
  unfold DayForecasts_new. intros H. bind_inv H.
  repeat match goal with
         | E : get _ _ = Returned _ |- _ => apply get_Returned in E as [? ?]
         end.
  subst.
  match goal with E : as_array _ = Returned _ |- _ => apply as_array_Returned in E as Hh end.
  rewrite Hh. injection H as <-. cbn. split; [reflexivity |]. now apply mapM_Returned.
Qed.

Lemma LocationForecasts_new_Returned (data : value) (metadata : ForecastMetadata.t)
    (latitude longitude : number) (lf : LocationForecasts.t) :
  LocationForecasts_new data metadata latitude longitude = Returned lf ->
  LocationForecasts.elevation lf = field data "h"
  /\ LocationForecasts.metadata lf = metadata
  /\ Forall2 (fun raw day => DayForecasts_new raw (field data "h") = Returned day)
             (elements_of (field data "d")) (LocationForecasts.dayForecasts lf).
Proof.
  unfold LocationForecasts_new. intros H. bind_inv H.
  repeat match goal with
         | E : get _ _ = Returned _ |- _ => apply get_Returned in E as [? ?]
         end.
  subst.
  match goal with E : as_array _ = Returned _ |- _ => apply as_array_Returned in E as Hd end.
  rewrite Hd. injection H as <-. cbn. split; [reflexivity |]. split; [reflexivity |].
  now apply mapM_Returned.
Qed.

End DecoderInversion.

(** X11.  Optional fields.  Whenever decoding an hour-record returns,
    [xcPotentialFlatlands] is the record's [xcf], or 0 when [xcf] is
    missing, so it is never [undefined] (a [null] is kept as it is);
    [isothermZero] is the record's [iso], [undefined] when missing.  On
    records of the declared shape decoding does return. *)
Theorem optional_fields_fall_back :
  forall (host : Host) (data elevation : value),
    (forall f : DetailedForecast.t,
        DetailedForecast_new data elevation = Returned f ->
        (field data "xcf" = Undefined ->
         DetailedForecast.xcPotentialFlatlands f = Number (Fin 0))
        /\ (field data "xcf" <> Undefined ->
            DetailedForecast.xcPotentialFlatlands f = field data "xcf")
        /\ DetailedForecast.xcPotentialFlatlands f <> Undefined
        /\ DetailedForecast.isothermZero f = field data "iso")
    /\ (shape_hour data = true -> is_primitive elevation = true ->
        exists f : DetailedForecast.t, DetailedForecast_new data elevation = Returned f).
Proof.
  intros host data elevation. split.
  - intros f Hf.
    destruct (DetailedForecast_new_fields data elevation f Hf) as [_ [Hxcf [Hiso _]]].
    rewrite Hxcf, Hiso. destruct (field data "xcf"); cbn; repeat split; congruence.
  - intros Hshape Hel.
    destruct (DetailedForecast_new_shape data elevation Hshape Hel) as [time [_ H]]. eauto.
Qed.

(** An hour-record without [xcf] decodes with flatlands potential 0. *)
Lemma optional_fields_witness :
  exists f : DetailedForecast.t,
    DetailedForecast_new (host := utcHost)
      (without "xcf" (exampleHour "2021-03-01T06:00:00Z" exampleProfile)) (num 500)
    = Returned f
    /\ DetailedForecast.xcPotentialFlatlands f = Number (Fin 0).
Proof.
  pose proof (optional_fields_fall_back utcHost
                (without "xcf" (exampleHour "2021-03-01T06:00:00Z" exampleProfile))
                (num 500)) as [Hfields Hreturns].
  destruct (Hreturns eq_refl eq_refl) as [f Hf].
  exists f. split; [exact Hf |]. now apply (Hfields f Hf).
Defined.

Lemma js_div_Number {host : Host} (q : Q) (k : positive) :
  js_div (Number (Fin q)) k = Returned (Fin (q / inject_Z (Zpos k))).
Proof. reflexivity. Qed.

(** X12.  Scaled fields.  Whenever decoding an hour-record returns, a
    numeric [v] is decoded to [v / 10] and a numeric [c] to [c / 100];
    every kept profile sample has its numeric [c] divided by 100 too; a
    missing [v] or [c] gives [NaN] and a [null] gives 0. *)
Theorem scaled_fields_are_divided :
  forall (host : Host) (data elevation : value),
    (forall f : DetailedForecast.t,
        DetailedForecast_new data elevation = Returned f ->
        (forall q : Q, field data "v" = Number (Fin q) ->
                       DetailedForecast.thermalVelocity f = Fin (q / 10))
        /\ (forall q : Q, field data "c" = Number (Fin q) ->
                          DetailedForecast.cloudCover f = Fin (q / 100))
        /\ (field data "v" = Undefined -> DetailedForecast.thermalVelocity f = NaN)
        /\ (field data "c" = Undefined -> DetailedForecast.cloudCover f = NaN)
        /\ (field data "v" = Null -> DetailedForecast.thermalVelocity f = Fin (0 / 10))
        /\ (exists kept : list value,
              filterM (aboveTerrain elevation) (elements_of (field data "p")) = Returned kept
              /\ Forall2 (fun e ag => forall q : Q,
                              field e "c" = Number (Fin q) ->
                              AboveGround.cloudCover ag = Fin (q / 100))
                         kept (DetailedForecast.aboveGround f)))
    /\ (shape_hour data = true -> is_primitive elevation = true ->
        exists f : DetailedForecast.t, DetailedForecast_new data elevation = Returned f).
Proof.
  intros host data elevation. split.
  - intros f Hf.
    destruct (DetailedForecast_new_fields data elevation f Hf)
      as [_ [_ [_ [Hv [Hc [[kept [Hkept Hmap]] _]]]]]].
    split; [| split; [| split; [| split; [| split]]]].
    + intros q Hq. rewrite Hq in Hv. now injection Hv as <-.
    + intros q Hq. rewrite Hq in Hc. now injection Hc as <-.
    + intros Hq. rewrite Hq in Hv. now injection Hv as <-.
    + intros Hq. rewrite Hq in Hc. now injection Hc as <-.
    + intros Hq. rewrite Hq in Hv. now injection Hv as <-.
    + exists kept. split; [exact Hkept |].
      apply mapM_Returned in Hmap. revert Hmap. apply Forall2_impl.
      intros e ag Hag q Hq. apply aboveGroundEntry_Returned in Hag as [_ Hdiv].
      rewrite Hq in Hdiv. now injection Hdiv as <-.
  - intros Hshape Hel.
    destruct (DetailedForecast_new_shape data elevation Hshape Hel) as [time [_ H]]. eauto.
Qed.

(** The example hour has [v = 23] and [c = 45]: 2.3 m/s and 0.45. *)
Lemma scaled_fields_witness :
  exists f : DetailedForecast.t,
    DetailedForecast_new (host := utcHost)
      (exampleHour "2021-03-01T06:00:00Z" exampleProfile) (num 500)
    = Returned f
    /\ DetailedForecast.thermalVelocity f = Fin (23 / 10)
    /\ DetailedForecast.cloudCover f = Fin (45 / 100).
Proof.
  pose proof (scaled_fields_are_divided utcHost
                (exampleHour "2021-03-01T06:00:00Z" exampleProfile) (num 500))
    as [Hfields Hreturns].
  destruct (Hreturns eq_refl eq_refl) as [f Hf].
  exists f. split; [exact Hf |].
  destruct (Hfields f Hf) as [Hv [Hc _]].
  split; [now apply Hv | now apply Hc].
Defined.

(** X13.  Winds by position.  Whenever decoding an hour-record whose [w]
    is an array returns, the five winds are the elements 0 to 4 of [w]:
    elements past the fifth are ignored, and with fewer than five the
    missing winds are [undefined], without any error. *)
Theorem winds_are_read_by_position :
  forall (host : Host) (data elevation : value),
    (forall (f : DetailedForecast.t) (ws : list value),
        DetailedForecast_new data elevation = Returned f ->
        field data "w" = Array ws ->
        DetailedForecast.winds f
        = DetailedWinds.mk (nth 0 ws Undefined) (nth 1 ws Undefined) (nth 2 ws Undefined)
                           (nth 3 ws Undefined) (nth 4 ws Undefined)
        /\ ((List.length ws <= 4)%nat ->
            DetailedWinds._4000MAMSL (DetailedForecast.winds f) = Undefined))
    /\ (shape_hour data = true -> is_primitive elevation = true ->
        exists f : DetailedForecast.t, DetailedForecast_new data elevation = Returned f).
Proof.
  intros host data elevation. split.
  - intros f ws Hf Hw.
    destruct (DetailedForecast_new_fields data elevation f Hf)
      as [_ [_ [_ [_ [_ [_ [H0 [H1 [H2 [H3 H4]]]]]]]]]].
    rewrite Hw in *. cbn [index] in *.
    injection H0 as H0. injection H1 as H1. injection H2 as H2.
    injection H3 as H3. injection H4 as H4.
    split.
    + destruct (DetailedForecast.winds f). cbn in *. congruence.
    + intros Hlen. rewrite <- H4. now apply nth_overflow.
  - intros Hshape Hel.
    destruct (DetailedForecast_new_shape data elevation Hshape Hel) as [time [_ H]]. eauto.
Qed.

(** The example hour has five winds, all read. *)
Lemma winds_witness :
  exists f : DetailedForecast.t,
    DetailedForecast_new (host := utcHost)
      (exampleHour "2021-03-01T06:00:00Z" exampleProfile) (num 500)
    = Returned f
    /\ DetailedForecast.winds f
       = DetailedWinds.mk exampleWind exampleWind exampleWind exampleWind exampleWind.
Proof.
  pose proof (winds_are_read_by_position utcHost
                (exampleHour "2021-03-01T06:00:00Z" exampleProfile) (num 500))
    as [Hwinds Hreturns].
  destruct (Hreturns eq_refl eq_refl) as [f Hf].
  exists f. split; [exact Hf |].
  now apply (Hwinds f [exampleWind; exampleWind; exampleWind; exampleWind; exampleWind] Hf).
Defined.

(** X14.  Missing containers.  Decoding an hour-record throws a
    [TypeError] when the record itself, its [bl], [s], [r] or [w] is
    [undefined] or [null], when [bl.c] is [null], when [p] is not an
    array, or when an entry of [p] is [undefined] or [null]. *)
Theorem missing_container_throws :
  forall (host : Host) (data elevation : value),
    is_nullish data = true
    \/ is_nullish (field data "bl") = true
    \/ field (field data "bl") "c" = Null
    \/ is_nullish (field data "s") = true
    \/ is_nullish (field data "r") = true
    \/ is_array (field data "p") = false
    \/ Exists (fun e => is_nullish e = true) (elements_of (field data "p"))
    \/ is_nullish (field data "w") = true ->
    DetailedForecast_new data elevation = Thrown TypeError.
Proof.
  intros host data elevation Hmissing.
  apply thrown_is_TypeError. intros f Hf.
  destruct (DetailedForecast_new_containers data elevation f Hf)
    as [Hdata [Hbl [Hc [Hs [Hr [Hp [Hentries Hw]]]]]]].
  destruct Hmissing as [H | [H | [H | [H | [H | [H | [H | H]]]]]]]; try congruence.
  apply Exists_exists in H as [e [Hin He]].
  apply (proj1 (Forall_forall _ _) Hentries) in Hin. congruence.
Qed.

(** The example hour without its boundary layer does not decode. *)
Lemma missing_container_witness :
  DetailedForecast_new (host := utcHost)
    (without "bl" (exampleHour "2021-03-01T06:00:00Z" exampleProfile)) (num 500)
  = Thrown TypeError.
Proof.
  apply missing_container_throws. right. left. reflexivity.
Defined.

Lemma LocationForecasts_new_hours {host : Host} (data : value)
    (metadata : ForecastMetadata.t) (latitude longitude : number)
    (lf : LocationForecasts.t) :
  LocationForecasts_new data metadata latitude longitude = Returned lf ->
  Forall2 (fun raw f => DetailedForecast_new raw (field data "h") = Returned f)
          (rawHours data) (flatForecasts lf)
  /\ map DayForecasts.thunderstormRisk (LocationForecasts.dayForecasts lf)
     = map (fun day => field day "th") (elements_of (field data "d")).
Proof.
  intros Hlf.
  destruct (LocationForecasts_new_Returned data metadata latitude longitude lf Hlf)
    as [_ [_ Hdays]].
  split.
  - rewrite flatForecasts_concat. unfold rawHours.
    apply Forall2_concat, Forall2_maps.
    revert Hdays. apply Forall2_impl. intros raw day Hday.
    now apply DayForecasts_new_Returned in Hday.
  - induction Hdays as [| raw day raws days Hday _ IH]; [reflexivity |].
    cbn [map]. apply DayForecasts_new_Returned in Hday as [-> _]. now rewrite IH.
Qed.

(** X15.  Decoding a location is all or nothing, in order.  When it
    returns, the elevation and the metadata are the ones given, there is
    one day per element of [d] with its thunderstorm risk [th], and the
    flattened forecasts are, one for one and in order, the decodings of
    the hour-records against the location's elevation: none is dropped
    or reordered, and each date is the one its time stamp is read as.
    When one hour-record does not decode, the location does not either:
    there is no partial result. *)
Theorem location_decoding_is_all_or_nothing :
  forall (host : Host) (data : value) (metadata : ForecastMetadata.t)
         (latitude longitude : number),
    (forall lf : LocationForecasts.t,
        LocationForecasts_new data metadata latitude longitude = Returned lf ->
        LocationForecasts.elevation lf = field data "h"
        /\ LocationForecasts.metadata lf = metadata
        /\ map DayForecasts.thunderstormRisk (LocationForecasts.dayForecasts lf)
           = map (fun day => field day "th") (elements_of (field data "d"))
        /\ Forall2 (fun raw f => DetailedForecast_new raw (field data "h") = Returned f
                                 /\ Date_new (field raw "t")
                                    = Returned (DetailedForecast.time f))
                   (rawHours data) (flatForecasts lf))
    /\ (Exists (fun raw => DetailedForecast_new raw (field data "h") = Thrown TypeError)
               (rawHours data) ->
        LocationForecasts_new data metadata latitude longitude = Thrown TypeError).
Proof.
  intros host data metadata latitude longitude.
  pose proof (LocationForecasts_new_hours data metadata latitude longitude) as Hall.
  split.
  - intros lf Hlf.
    destruct (LocationForecasts_new_Returned data metadata latitude longitude lf Hlf)
      as [Hel [Hmd _]].
    destruct (Hall lf Hlf) as [Hhours Hth].
    split; [exact Hel |]. split; [exact Hmd |]. split; [exact Hth |].
    revert Hhours. apply Forall2_impl. intros raw f Hf. split; [exact Hf |].
    now apply DetailedForecast_new_fields in Hf.
  - intros Hfail. apply thrown_is_TypeError. intros lf Hlf.
    destruct (Hall lf Hlf) as [Hhours _].
    apply Forall2_exists_l in Hhours.
    apply Exists_exists in Hfail as [raw [Hin Hthrown]].
    apply (proj1 (Forall_forall _ _) Hhours) in Hin as [f Hf]. congruence.
Qed.

(** A location whose second hour-record has no boundary layer does not
    decode, although its first hour-record does. *)
Lemma location_decoding_witness :
  LocationForecasts_new (host := utcHost)
    (exampleLocation
       [exampleHour "2021-03-01T06:00:00Z" exampleProfile;
        without "bl" (exampleHour "2021-03-01T09:00:00Z" exampleProfile)])
    exampleMetadata (Fin 45) (Fin 9)
  = Thrown TypeError.
Proof.
  apply (proj2 (location_decoding_is_all_or_nothing utcHost _ _ _ _)).
  apply Exists_cons_tl, Exists_cons_hd. vm_compute. reflexivity.
Defined.

(** ** Sorted profiles *)

Lemma Qle_bool_trans (a b c : Q) :
  Qle_bool a b = true -> Qle_bool b c = true -> Qle_bool a c = true.
Proof. rewrite !Qle_bool_iff. apply Qle_trans. Qed.

Lemma increasing_suffix {A : Type} (R : A -> A -> bool) (l1 l2 : list A) :
  increasing R (l1 ++ l2) = true -> increasing R l2 = true.
Proof.
  induction l1 as [| x l1 IH]; [trivial |]. intros H. apply IH.
  now apply increasing_tail in H.
Qed.

Lemma filter_all {A : Type} (p : A -> bool) (l : list A) :
  Forall (fun x => p x = true) l -> filter p l = l.
Proof. induction 1 as [| x l Hx _ IH]; cbn; [reflexivity |]. now rewrite Hx, IH. Qed.

(** In an ascending list the elements above a threshold are a suffix. *)
Lemma ascending_filter_suffix (terrain : Q) (hs : list Q) :
  increasing Qle_bool hs = true ->
  exists below,
    hs = below ++ filter (fun h => negb (Qle_bool h terrain)) hs
    /\ Forall (fun h => h <= terrain) below
    /\ Forall (fun h => terrain < h) (filter (fun h => negb (Qle_bool h terrain)) hs).
Proof.
  induction hs as [| h hs IH]; intros Hsorted.
  - exists []. repeat split; constructor.
  - cbn [filter]. destruct (Qle_bool h terrain) eqn:Hh; cbn [negb].
    + destruct (IH (increasing_tail _ _ _ Hsorted)) as [below [Heq [Hbelow Hkept]]].
      exists (h :: below). split; [cbn; now rewrite <- Heq |].
      split; [| exact Hkept]. constructor; [now apply Qle_bool_iff | exact Hbelow].
    + assert (Hall : Forall (fun x => negb (Qle_bool x terrain) = true) hs).
      { apply (increasing_head Qle_bool h hs Qle_bool_trans) in Hsorted.
        revert Hsorted. apply Forall_impl. intros x Hx.
        apply Qle_bool_iff in Hx. apply not_true_iff_false in Hh.
        rewrite Qle_bool_iff in Hh. apply negb_true_iff, not_true_iff_false.
        rewrite Qle_bool_iff. lra. }
      rewrite (filter_all _ hs Hall). exists []. split; [reflexivity |].
      split; [constructor |].
      apply not_true_iff_false in Hh. rewrite Qle_bool_iff in Hh.
      constructor; [lra |].
      revert Hall. apply Forall_impl. intros x Hx.
      apply negb_true_iff, not_true_iff_false in Hx. rewrite Qle_bool_iff in Hx. lra.
Qed.

(** X16.  A sorted profile stays sorted and loses only its foot: when
    the elevations of the raw profile are numbers in ascending order,
    the decoded samples are the profile without its leading entries at
    or below the terrain elevation, so their elevations are still in
    ascending order (the order the field [aboveGround] is documented to
    have). *)
Theorem sorted_profile_keeps_its_top :
  forall (host : Host) (data : value) (terrain : Q) (hs : list Q),
    shape_hour data = true ->
    map (fun e => field e "h") (elements_of (field data "p")) = map num hs ->
    increasing Qle_bool hs = true ->
    exists (f : DetailedForecast.t) (below kept : list Q),
      DetailedForecast_new data (Number (Fin terrain)) = Returned f
      /\ hs = below ++ kept
      /\ Forall (fun h => h <= terrain) below
      /\ Forall (fun h => terrain < h) kept
      /\ map AboveGround.elevation (DetailedForecast.aboveGround f) = map num kept
      /\ increasing Qle_bool kept = true.
Proof.
  intros host data terrain hs Hshape Hhs Hsorted.
  destruct (DetailedForecast_new_shape data (Number (Fin terrain)) Hshape eq_refl)
    as [time [_ Hrun]].
  destruct (ascending_filter_suffix terrain hs Hsorted) as [below [Heq [Hbelow Hkept]]].
  exists (decodedHour time data (Number (Fin terrain))), below,
    (filter (fun h => negb (Qle_bool h terrain)) hs).
  split; [exact Hrun |]. split; [exact Heq |]. split; [exact Hbelow |].
  split; [exact Hkept |]. split.
  - cbn [decodedHour DetailedForecast.aboveGround]. rewrite map_map.
    now apply filtered_elevations.
  - rewrite Heq in Hsorted. now apply increasing_suffix in Hsorted.
Qed.

(** The example profile (300, 600, 1200 m) above terrain at 500 m. *)
Lemma sorted_profile_witness :
  exists (f : DetailedForecast.t) (below kept : list Q),
    DetailedForecast_new (host := utcHost)
      (exampleHour "2021-03-01T06:00:00Z" exampleProfile) (Number (Fin 500))
    = Returned f
    /\ [300; 600; 1200] = below ++ kept
    /\ Forall (fun h => h <= 500) below
    /\ Forall (fun h => 500 < h) kept
    /\ map AboveGround.elevation (DetailedForecast.aboveGround f) = map num kept
    /\ increasing Qle_bool kept = true.
Proof.
  apply (sorted_profile_keeps_its_top utcHost
           (exampleHour "2021-03-01T06:00:00Z" exampleProfile) 500 [300; 600; 1200]);
    reflexivity.
Defined.

(** ** The detailed view *)


(** ** From the raw record to the period selector *)

(** X18.  End to end: when a location record decodes, the period
    selector built from [offsetAndDates()] shows exactly one period per
    raw hour-record, in the order of the record: grouping returns, the
    periods of its groups, concatenated, carry the hour offsets of the
    decodings of the hour-records, one for one, and [length()] is the
    number of hour-records. *)
Theorem selector_shows_every_hour_record :
  forall (host : Host) (E : Type) (periodSpan : bool -> number -> Date -> E)
         (data : value) (metadata : ForecastMetadata.t) (latitude longitude : number)
         (lf : LocationForecasts.t) (currentHourOffset : number),
    LocationForecasts_new data metadata latitude longitude = Returned lf ->
    exists groups : list (DayGroup E),
      periodSelectorsByDay
        (flatPeriodSelectors periodSpan (offsetAndDates lf) currentHourOffset)
      = Returned groups
      /\ Forall2 (fun raw hourOffset =>
                    exists f : DetailedForecast.t,
                      DetailedForecast_new raw (field data "h") = Returned f
                      /\ hourOffset
                         = hourOffsetSinceFirstTimeStep f (ForecastMetadata.firstTimeStep metadata))
                 (rawHours data) (map snd (List.concat (map fst groups)))
      /\ same_number (PeriodSelector_length groups)
                     (of_nat (List.length (rawHours data))).
Proof.
  intros host E periodSpan data metadata latitude longitude lf currentHourOffset Hlf.
  set (flat := flatPeriodSelectors periodSpan (offsetAndDates lf) currentHourOffset).
  destruct (periodSelectorsByDay_total flat) as [groups [Hrun [Hcat _]]].
  destruct (LocationForecasts_new_hours data metadata latitude longitude lf Hlf)
    as [Hhours _].
  destruct (LocationForecasts_new_Returned data metadata latitude longitude lf Hlf)
    as [_ [Hmd _]].
  assert (Hoffsets : map snd (List.concat (map fst groups))
                     = map (offsetOf lf) (flatForecasts lf)).
  { unfold DayGroup in *. rewrite Hcat, map_map, <- offsetAndDates_offsets.
    unfold flat, flatPeriodSelectors. rewrite map_map.
    apply map_ext. now intros [hourOffset date]. }
  exists groups. split; [exact Hrun |]. split.
  - rewrite Hoffsets. clear - Hhours Hmd.
    induction Hhours as [| raw f raws fs Hf _ IH]; cbn [map]; constructor; [| exact IH].
    exists f. split; [exact Hf |]. unfold offsetOf. now rewrite Hmd.
  - unfold PeriodSelector_length.
    destruct (PeriodSelector_length_sum groups 0) as [r [Hr Heq]].
    rewrite Hr. unfold of_nat, of_Z. cbn [same_number]. rewrite Heq.
    assert (Hlen : list_sum (map (fun g : DayGroup E => List.length (fst g)) groups)
                   = List.length (rawHours data)).
    { rewrite (Forall2_length Hhours), <- (length_map (offsetOf lf)), <- Hoffsets.
      rewrite length_map, length_concat_sum, map_map. reflexivity. }
    rewrite <- Hlen. apply Qplus_0_l.
Qed.

Lemma decoding_example_returns :
  exists lf : LocationForecasts.t,
    LocationForecasts_new (host := utcHost) hourlyLocation exampleMetadata (Fin 45) (Fin 9)
    = Returned lf.
Proof.
  destruct (LocationForecasts_new_shape (host := utcHost) hourlyLocation exampleMetadata
              (Fin 45) (Fin 9) eq_refl) as [days [H _]].
  eauto.
Defined.

(** The example location has three hour-records and three periods are shown. *)
Lemma selector_shows_witness :
  exists (lf : LocationForecasts.t) (groups : list (DayGroup nat)),
    LocationForecasts_new (host := utcHost) hourlyLocation exampleMetadata (Fin 45) (Fin 9)
    = Returned lf
    /\ periodSelectorsByDay (host := utcHost)
         (flatPeriodSelectors (fun _ _ _ => 0%nat) (offsetAndDates lf) (Fin 3))
       = Returned groups
    /\ same_number (PeriodSelector_length groups) (of_nat 3).
Proof.
  destruct (decoding_example_returns) as [lf Hlf].
  destruct (selector_shows_every_hour_record utcHost nat (fun _ _ _ => 0%nat)
              hourlyLocation exampleMetadata (Fin 45) (Fin 9) lf (Fin 3) Hlf)
    as [groups [Hrun [_ Hlen]]].
  exists lf, groups. split; [exact Hlf |]. split; [exact Hrun | exact Hlen].
Defined.
